(** * The REST gateway of the hornet node: route registration of the
      [v1] plugin and of the [debug] plugin.

The development embeds [plugins/restapi/v1/plugin.go] (package [v1]) and
[plugins/debug/plugin.go] (package [debug]).  Both files register
closures on a shared Echo router; the operations the closures call
([info], [sendMessage], [removePeer], ...) live in other files of the
two packages and are taken as a record of functions.  The HTTP layer
(Echo's context, router and response writer) is modelled as far as the
closures use it. *)

From Stdlib Require Import ZArith Lia.
From Stdlib Require Import Strings.Ascii.
From Stdlib Require Strings.Byte.
From stdpp Require Import base strings list gmap.

Local Open Scope Z_scope.

(** ** Errors and results *)

(** [ErrNodeNotSync] is the package-level error value of both plugins
    ([errors.New("node not synced")]).

Modelled from the spec: the remaining error kinds are raised by the
operations and by the router, none of which is among the sources; they
are the taxonomy of section 7 (InvalidParameter, NotFound,
ProofOfWorkRejected, Internal), plus the router's method mismatch. *)
Inductive error : Type :=
| ErrNodeNotSync
| ErrInvalidParameter (msg : string)
| ErrNotFound (msg : string)
| ErrProofOfWorkRejected (msg : string)
| ErrInternal (msg : string)
| ErrMethodNotAllowed.

(** A Go result pair [(value, err)] where exactly one side is meaningful. *)
Inductive result (A : Type) : Type :=
| Ok (a : A)
| Err (e : error).
Arguments Ok {A} a.
Arguments Err {A} e.

(** [net/http] status codes used by the two packages. *)
Definition StatusOK : Z := 200.
Definition StatusCreated : Z := 201.
Definition StatusNoContent : Z := 204.
Definition StatusBadRequest : Z := 400.
Definition StatusNotFound : Z := 404.
Definition StatusMethodNotAllowed : Z := 405.
Definition StatusInternalServerError : Z := 500.
Definition StatusServiceUnavailable : Z := 503.

(** Modelled from the spec: the single error-to-status translation of
    section 7, which lives in the RestAPI plugin's error handler and is
    not among the sources. *)
Definition statusOf (e : error) : Z :=
  match e with
  | ErrNodeNotSync => StatusServiceUnavailable
  | ErrInvalidParameter _ => StatusBadRequest
  | ErrNotFound _ => StatusNotFound
  | ErrProofOfWorkRejected _ => StatusBadRequest
  | ErrInternal _ => StatusInternalServerError
  | ErrMethodNotAllowed => StatusMethodNotAllowed
  end.

(** ** Values sent on the wire *)

(** What [encoding/json] produces for a Go value passed as [interface{}]. *)
#[warnings="-register-all"]
Inductive JSON : Type :=
| JNull
| JBool (b : bool)
| JNumber (n : Z)
| JString (s : string)
| JArray (items : list JSON)
| JObject (fields : list (string * JSON)).

(** What a handler has written to the response body: nothing, a JSON
    document or raw bytes. *)
Inductive Payload : Type :=
| BodyEmpty
| BodyJSON (v : JSON)
| BodyBlob (b : list Byte.byte).

(** The response writer held by an [echo.Context]: status line, header
    map and what has been written to the body. *)
Record Response : Type := mkResponse {
  Status : Z;
  Header : gmap string string;
  Written : Payload
}.

(** The response writer of a new context: nothing set, nothing written. *)
Definition freshResponse : Response :=
  {| Status := 0; Header := ∅; Written := BodyEmpty |}.

(** Echo's header and MIME constants. *)
Definition HeaderContentType : string := "Content-Type".
Definition HeaderLocation : string := "Location".
Definition MIMEApplicationJSONCharsetUTF8 : string := "application/json; charset=UTF-8".
Definition MIMEOctetStream : string := "application/octet-stream".

(** The three shapes a written response can take. *)
Inductive Encoding : Type := Structured | RawBytes | NoContentBody.

(** The shape of a response, read off what was written. *)
Definition encodingOf (r : Response) : Encoding :=
  match Written r with
  | BodyJSON _ => Structured
  | BodyBlob _ => RawBytes
  | BodyEmpty => NoContentBody
  end.

(** ** Requests *)

Inductive Method : Type := GET | POST | DELETE | PUT | PATCH | HEAD | OPTIONS.

Global Instance Method_eq_dec : EqDecision Method.
Proof. solve_decision. Defined.

(** A request as a handler sees it through [echo.Context]: [Params] are
    the path parameters bound by the router. *)
Record Request : Type := mkRequest {
  ReqMethod : Method;
  ReqPath : string;
  Params : list (string * string);
  QueryParams : list (string * string);
  ReqBody : list Byte.byte
}.

(** The value bound to a name in a list of bindings. *)
Fixpoint assoc (k : string) (l : list (string * string)) : option string :=
  match l with
  | [] => None
  | (k', v) :: l' => if String.eqb k k' then Some v else assoc k l'
  end.

(** [c.Param(name)]: the empty string when the parameter is not bound. *)
Definition Param (c : Request) (name : string) : string :=
  default "" (assoc name (Params c)).

(** ** Package-level variables of [v1] *)

Record Globals : Type := mkGlobals {
  powEnabled : bool;
  powWorkerCount : Z;
  features : list string
}.

(** The zero values the variables hold before [configure] runs. *)
Definition zeroGlobals : Globals :=
  {| powEnabled := false; powWorkerCount := 0; features := [] |}.

Section Echo.
  (** State of the collaborators (ledger store, peering manager, sync
      manager, ...), reached only through the operations. *)
  Context {World : Type}.

(** Everything a running handler can read or change outside its own
    context. *)
Record Node : Type := mkNode {
  vars : Globals;
  world : World
}.

(** A handler runs against the node and the response writer of its
    context. *)
Record Exchange : Type := mkExchange {
  node : Node;
  resp : Response
}.

(** Computations that may change the exchange and end in a Go error. *)
Definition Act (A : Type) : Type := Exchange -> Exchange * result A.

Definition ret {A : Type} (a : A) : Act A := fun s => (s, Ok a).

Definition bind {A B : Type} (m : Act A) (k : A -> Act B) : Act B :=
  fun s =>
    match m s with
    | (s', Ok a) => k a s'
    | (s', Err e) => (s', Err e)
    end.

(** [func(c echo.Context) error] *)
Definition HandlerFunc : Type := Request -> Act unit.

(** An operation of the packages: reads the request, works on the
    node, returns [(resp, err)]. *)
Definition Op (A : Type) : Type := Request -> Node -> Node * result A.

(** Run a function of the node inside a handler. *)
Definition invoke {A : Type} (f : Node -> Node * result A) : Act A :=
  fun s =>
    let (n', r) := f (node s) in
    ({| node := n'; resp := resp s |}, r).

Definition call {A : Type} (op : Op A) (c : Request) : Act A := invoke (op c).

(** [c.Response().Header().Set(key, value)] *)
Definition SetHeader (key value : string) : Act unit :=
  fun s =>
    let r := resp s in
    ({| node := node s;
        resp := {| Status := Status r;
                   Header := <[key := value]> (Header r);
                   Written := Written r |} |}, Ok tt).

(** [c.JSON(code, i)]; encoding the value and writing it out are taken to
    succeed. *)
Definition JSON_ (code : Z) (i : JSON) : Act unit :=
  fun s =>
    ({| node := node s;
        resp := {| Status := code;
                   Header := <[HeaderContentType := MIMEApplicationJSONCharsetUTF8]>
                               (Header (resp s));
                   Written := BodyJSON i |} |}, Ok tt).

(** [c.Blob(code, contentType, b)]; the write is taken to succeed. *)
Definition Blob (code : Z) (contentType : string) (b : list Byte.byte) : Act unit :=
  fun s =>
    ({| node := node s;
        resp := {| Status := code;
                   Header := <[HeaderContentType := contentType]> (Header (resp s));
                   Written := BodyBlob b |} |}, Ok tt).

(** [c.NoContent(code)] *)
Definition NoContent (code : Z) : Act unit :=
  fun s =>
    ({| node := node s;
        resp := {| Status := code;
                   Header := Header (resp s);
                   Written := BodyEmpty |} |}, Ok tt).

(** *** Routes *)

Record Route : Type := mkRoute {
    RouteMethod : Method;
    RoutePath : string;
    RouteHandler : HandlerFunc
  }.

(** The routes added to one [*echo.Echo], in registration order. *)
Definition Router : Type := list Route.

(** [e.Group(prefix)]: a group only remembers its prefix. *)
Definition Group (prefix : string) : string := prefix.

Definition add (m : Method) (group path : string) (h : HandlerFunc) (e : Router) : Router :=
  e ++ [ {| RouteMethod := m; RoutePath := group +:+ path; RouteHandler := h |} ].

(** [g.GET(path, h)], [g.POST(path, h)], [g.DELETE(path, h)] *)
Definition Group_GET := add GET.
Definition Group_POST := add POST.
Definition Group_DELETE := add DELETE.

End Echo.

Arguments Node : clear implicits.
Arguments Exchange : clear implicits.
Arguments Act : clear implicits.
Arguments HandlerFunc : clear implicits.
Arguments Op : clear implicits.
Arguments Route : clear implicits.
Arguments Router : clear implicits.

Notation "x <- m ;; k" := (bind m (fun x => k))
  (at level 100, m at next level, right associativity).

(** ** Echo's router, as far as the two route tables exercise it *)

Section Routing.
  Context {World : Type}.

(** Cut a path or a path template at every slash: ["/a/b"] gives
    [[""; "a"; "b"]]. *)
Fixpoint segments (s : string) : list string :=
  match s with
  | EmptyString => [EmptyString]
  | String ch s' =>
      if Ascii.eqb ch "/"%char then EmptyString :: segments s'
      else match segments s' with
           | [] => [String ch EmptyString]
           | seg :: segs => String ch seg :: segs
           end
  end.

(** A template segment [":name"] is a named parameter. *)
Definition paramName (seg : string) : option string :=
  match seg with
  | String ch name => if Ascii.eqb ch ":"%char then Some name else None
  | EmptyString => None
  end.

(** Match a request path against a template, segment by segment: a
    static segment must be equal, a parameter takes the whole segment. *)
Fixpoint matchSegments (tmpl path : list string) : option (list (string * string)) :=
  match tmpl, path with
  | [], [] => Some []
  | t :: tmpl', p :: path' =>
      match paramName t with
      | Some name =>
          match matchSegments tmpl' path' with
          | Some ps => Some ((name, p) :: ps)
          | None => None
          end
      | None => if String.eqb t p then matchSegments tmpl' path' else None
      end
  | _, _ => None
  end.

(** The parameters a template binds on a path it matches. *)
Definition matchPath (tmpl path : string) : option (list (string * string)) :=
  matchSegments (segments tmpl) (segments path).

(** What the router finds for a request. *)
Inductive Lookup : Type :=
| Found (h : HandlerFunc World) (ps : list (string * string))
| NotAllowed
| Unrouted.

(** The route serving a method and a path given by its segments: the
    first registered route of that method whose template matches.  When
    only routes of other methods match the path the router answers
    "method not allowed", when none matches it answers "not found". *)
Fixpoint findRouteSegments (e : Router World) (m : Method) (path : list string) : Lookup :=
  match e with
  | [] => Unrouted
  | r :: e' =>
      match matchSegments (segments (RoutePath r)) path with
      | Some ps =>
          if decide (RouteMethod r = m) then Found (RouteHandler r) ps
          else match findRouteSegments e' m path with
               | Found h ps' => Found h ps'
               | _ => NotAllowed
               end
      | None => findRouteSegments e' m path
      end
  end.

Definition findRoute (e : Router World) (m : Method) (path : string) : Lookup :=
  findRouteSegments e m (segments path).

(** A segment: a string without a slash. *)
Fixpoint slashFree (s : string) : bool :=
  match s with
  | EmptyString => true
  | String ch s' => negb (Ascii.eqb ch "/"%char) && slashFree s'
  end.

(** The handler registered for a method under a template, if any. *)
Definition handlerAt (e : Router World) (m : Method) (tmpl : string)
    : option (HandlerFunc World) :=
  RouteHandler <$>
    List.find (fun r => bool_decide (RouteMethod r = m) && String.eqb (RoutePath r) tmpl) e.

(** The text of an error, [err.Error()]. *)
Definition errorMessage (e : error) : string :=
  match e with
  | ErrNodeNotSync => "node not synced"
  | ErrInvalidParameter msg => msg
  | ErrNotFound msg => msg
  | ErrProofOfWorkRejected msg => msg
  | ErrInternal msg => msg
  | ErrMethodNotAllowed => "Method Not Allowed"
  end.

(** Modelled from the spec: the error handler of the RestAPI plugin is
    not among the sources; section 7 has every failure leave the gateway
    as a status from [statusOf] with a code and a human message. *)
Definition HTTPErrorHandler (e : error) : Response :=
  {| Status := statusOf e;
     Header := {[ HeaderContentType := MIMEApplicationJSONCharsetUTF8 ]};
     Written := BodyJSON (JObject [("error",
                  JObject [("code", JNumber (statusOf e));
                           ("message", JString (errorMessage e))])]) |}.

(** Run a handler on a fresh response writer; a returned error is handed
    to the error handler. *)
Definition runHandler (h : HandlerFunc World) (c : Request) (n : Node World)
    : Node World * Response :=
  match h c {| node := n; resp := freshResponse |} with
  | (s, Ok _) => (node s, resp s)
  | (s, Err err) => (node s, HTTPErrorHandler err)
  end.

(** [e.ServeHTTP]: route the request, bind its path parameters, run the
    handler. *)
Definition ServeHTTP (e : Router World) (req : Request) (n : Node World)
    : Node World * Response :=
  match findRoute e (ReqMethod req) (ReqPath req) with
  | Found h ps =>
      runHandler h {| ReqMethod := ReqMethod req; ReqPath := ReqPath req;
                       Params := ps; QueryParams := QueryParams req;
                       ReqBody := ReqBody req |} n
  | NotAllowed => (n, HTTPErrorHandler ErrMethodNotAllowed)
  | Unrouted => (n, HTTPErrorHandler (ErrNotFound "Not Found"))
  end.

(** A sequence of registration statements on one router. *)
Definition statements (steps : list (Router World -> Router World)) (e : Router World)
    : Router World :=
  foldl (fun e' step => step e') e steps.

(** A statement guarded by [if cond { ... }]. *)
Definition when (cond : bool) (step : Router World -> Router World)
    : Router World -> Router World :=
  if cond then step else id.

(** Outcome of a plugin's [configure]. *)
Inductive Startup : Type :=
| LogPanic (msg : string)
| NilPointerPanic
| Configured (g : Globals) (e : Router World).

End Routing.

Arguments Lookup : clear implicits.
Arguments Startup : clear implicits.

(** A plain request, before routing. *)
Definition request (m : Method) (path : string) (body : list Byte.byte) : Request :=
  {| ReqMethod := m; ReqPath := path; Params := []; QueryParams := []; ReqBody := body |}.

(** ** Package [pkg/restapi] *)

Module restapipkg.

(** Modelled from the spec: the parameter names are constants of
    [pkg/restapi], which is not among the sources; the request table of
    section 6 writes them [:id], [:txid], [:index] and [:addr]. *)
Definition ParameterMessageID : string := "id".
Definition ParameterTransactionID : string := "txid".
Definition ParameterMilestoneIndex : string := "index".
Definition ParameterOutputID : string := "id".
Definition ParameterAddress : string := "addr".
Definition ParameterAliasID : string := "id".
Definition ParameterNFTID : string := "id".
Definition ParameterFoundryID : string := "id".
Definition ParameterPeerID : string := "id".

(** Modelled from the spec: [JSONResponse] is a function of
    [pkg/restapi]; section 4.5 has it wrap the success payload uniformly
    and send it with the given status code. *)
Definition JSONResponse {World : Type} (c : Request) (statusCode : Z) (result : JSON)
    : Act World unit :=
  JSON_ statusCode (JObject [("data", result)]).

End restapipkg.

(** ** Package [pkg/node] *)

Module nodepkg.

(** Plugin status values, under the names the two files use. *)
Inductive PluginStatus : Type := Disabled | StatusEnabled.

(** The fields of [node.Plugin] that [init] fills with data. *)
Record Plugin : Type := mkPlugin {
  Status : PluginStatus;
  Name : string
}.

End nodepkg.

(** An injected pointer; what it points to is reached through the
    operations only. *)
Inductive Handle : Type := HandleAt (addr : positive).

(** [*configuration.Configuration]: the two accessors [configure] uses. *)
Record Configuration : Type := mkConfiguration {
  Configuration_Bool : string -> bool;
  Configuration_Int : string -> Z
}.

(** * Package [v1] *)

Module V1.

(** [time.Millisecond], in nanoseconds as [time.Duration] counts. *)
Definition Millisecond : Z := 1000000.

Definition waitForNodeSyncedTimeout : Z := 2000 * Millisecond.

Import restapipkg.

Definition RouteInfo : string := "/info".
Definition RouteTips : string := "/tips".
Definition RouteMessageData : string := "/messages/:" +:+ ParameterMessageID.
Definition RouteMessageMetadata : string := "/messages/:" +:+ ParameterMessageID +:+ "/metadata".
Definition RouteMessageBytes : string := "/messages/:" +:+ ParameterMessageID +:+ "/raw".
Definition RouteMessageChildren : string := "/messages/:" +:+ ParameterMessageID +:+ "/children".
Definition RouteMessages : string := "/messages".
Definition RouteTransactionsIncludedMessage : string :=
  "/transactions/:" +:+ ParameterTransactionID +:+ "/included-message".
Definition RouteMilestone : string := "/milestones/:" +:+ ParameterMilestoneIndex.
Definition RouteMilestoneUTXOChanges : string :=
  "/milestones/:" +:+ ParameterMilestoneIndex +:+ "/utxo-changes".
Definition RouteOutputs : string := "/outputs".
Definition RouteOutput : string := "/outputs/:" +:+ ParameterOutputID.
Definition RouteAddressBech32Outputs : string := "/addresses/:" +:+ ParameterAddress +:+ "/outputs".
Definition RouteAddressEd25519Outputs : string :=
  "/addresses/ed25519/:" +:+ ParameterAddress +:+ "/outputs".
Definition RouteAddressAliasOutputs : string :=
  "/addresses/alias/:" +:+ ParameterAddress +:+ "/outputs".
Definition RouteAddressNFTOutputs : string :=
  "/addresses/nft/:" +:+ ParameterAddress +:+ "/outputs".
Definition RouteAlias : string := "/aliases/:" +:+ ParameterAliasID.
Definition RouteNFT : string := "/nft/:" +:+ ParameterNFTID.
Definition RouteFoundry : string := "/foundries/:" +:+ ParameterFoundryID.
Definition RouteTreasury : string := "/treasury".
Definition RouteReceipts : string := "/receipts".
Definition RouteReceiptsMigratedAtIndex : string := "/receipts/:" +:+ ParameterMilestoneIndex.
Definition RoutePeer : string := "/peers/:" +:+ ParameterPeerID.
Definition RoutePeers : string := "/peers".
Definition RouteControlDatabasePrune : string := "/control/database/prune".
Definition RouteControlSnapshotsCreate : string := "/control/snapshots/create".

(** [init] *)
Definition Plugin : nodepkg.Plugin :=
  {| nodepkg.Status := nodepkg.StatusEnabled; nodepkg.Name := "RestAPIV1" |}.

(** The [dependencies] struct after injection.  Fields without the
    [optional:"true"] tag always hold a value; the two tagged fields are
    nil when nothing provides them. *)
Record dependencies : Type := mkDependencies {
  Storage : Handle;
  SyncManager : Handle;
  Tangle : Handle;
  PeeringManager : Handle;
  GossipService : Handle;
  UTXOManager : Handle;
  PoWHandler : Handle;
  MessageProcessor : Handle;
  SnapshotManager : Handle;
  AppInfo : Handle;
  NodeConfig : Configuration;
  PeeringConfigManager : Handle;
  NetworkID : Z;
  NetworkIDName : string;
  DeserializationParameters : Handle;
  MaxDeltaMsgYoungestConeRootIndexToCMI : Z;
  MaxDeltaMsgOldestConeRootIndexToCMI : Z;
  BelowMaxDepth : Z;
  MinPoWScore : Handle;
  Bech32HRP : string;
  RestAPILimitsMaxResults : Z;
  SnapshotsFullPath : string;
  SnapshotsDeltaPath : string;
  TipSelector : option Handle;
  Echo : option Handle
}.



(** What the container can provide when the plugin's [DepsFunc] is
    invoked: per entry, a value or nothing. *)
Record Container : Type := mkContainer {
  cStorage : option Handle;
  cSyncManager : option Handle;
  cTangle : option Handle;
  cPeeringManager : option Handle;
  cGossipService : option Handle;
  cUTXOManager : option Handle;
  cPoWHandler : option Handle;
  cMessageProcessor : option Handle;
  cSnapshotManager : option Handle;
  cAppInfo : option Handle;
  cNodeConfig : option Configuration;
  cPeeringConfigManager : option Handle;
  cNetworkID : option Z;
  cNetworkIDName : option string;
  cDeserializationParameters : option Handle;
  cMaxDeltaMsgYoungestConeRootIndexToCMI : option Z;
  cMaxDeltaMsgOldestConeRootIndexToCMI : option Z;
  cBelowMaxDepth : option Z;
  cMinPoWScore : option Handle;
  cBech32HRP : option string;
  cRestAPILimitsMaxResults : option Z;
  cSnapshotsFullPath : option string;
  cSnapshotsDeltaPath : option string;
  cTipSelector : option Handle;
  cEcho : option Handle
}.


(** Modelled from the spec: filling the struct is the work of the node
    framework's call of [DepsFunc], which is not among the sources;
    section 4.1 has a missing mandatory entry fail the startup and a
    missing optional one leave its field empty.  [None] is that
    failure. *)
Definition DepsFunc (c : Container) : option dependencies :=
  storage ← cStorage c;
  syncManager ← cSyncManager c;
  tangle ← cTangle c;
  peeringManager ← cPeeringManager c;
  gossipService ← cGossipService c;
  utxoManager ← cUTXOManager c;
  powHandler ← cPoWHandler c;
  messageProcessor ← cMessageProcessor c;
  snapshotManager ← cSnapshotManager c;
  appInfo ← cAppInfo c;
  nodeConfig ← cNodeConfig c;
  peeringConfigManager ← cPeeringConfigManager c;
  networkID ← cNetworkID c;
  networkIDName ← cNetworkIDName c;
  deserializationParameters ← cDeserializationParameters c;
  maxDeltaYoungest ← cMaxDeltaMsgYoungestConeRootIndexToCMI c;
  maxDeltaOldest ← cMaxDeltaMsgOldestConeRootIndexToCMI c;
  belowMaxDepth ← cBelowMaxDepth c;
  minPoWScore ← cMinPoWScore c;
  bech32HRP ← cBech32HRP c;
  restAPILimitsMaxResults ← cRestAPILimitsMaxResults c;
  snapshotsFullPath ← cSnapshotsFullPath c;
  snapshotsDeltaPath ← cSnapshotsDeltaPath c;
  Some {| Storage := storage; SyncManager := syncManager; Tangle := tangle;
          PeeringManager := peeringManager; GossipService := gossipService;
          UTXOManager := utxoManager; PoWHandler := powHandler;
          MessageProcessor := messageProcessor; SnapshotManager := snapshotManager;
          AppInfo := appInfo; NodeConfig := nodeConfig;
          PeeringConfigManager := peeringConfigManager; NetworkID := networkID;
          NetworkIDName := networkIDName;
          DeserializationParameters := deserializationParameters;
          MaxDeltaMsgYoungestConeRootIndexToCMI := maxDeltaYoungest;
          MaxDeltaMsgOldestConeRootIndexToCMI := maxDeltaOldest;
          BelowMaxDepth := belowMaxDepth; MinPoWScore := minPoWScore;
          Bech32HRP := bech32HRP; RestAPILimitsMaxResults := restAPILimitsMaxResults;
          SnapshotsFullPath := snapshotsFullPath;
          SnapshotsDeltaPath := snapshotsDeltaPath;
          TipSelector := cTipSelector c; Echo := cEcho c |}.

(** The response struct of [sendMessage]; the handler reads its
    [MessageID] field. *)
Record messageCreatedResponse : Type := mkMessageCreatedResponse {
  MessageID : string
}.

Definition messageCreatedResponse_json (r : messageCreatedResponse) : JSON :=
  JObject [("messageId", JString (MessageID r))].

Section Configure.
  Context {World : Type}.

(** The declarations the file uses without containing them: two
    configuration keys of [plugins/restapi] and the operations of the
    package that the closures call. *)
Record Operations : Type := mkOperations {
  CfgRestAPIPoWEnabled : string;
  CfgRestAPIPoWWorkerCount : string;
  info : Node World -> Node World * result JSON;
  tips : Op World JSON;
  messageMetadataByID : Op World JSON;
  messageByID : Op World JSON;
  messageBytesByID : Op World (list Byte.byte);
  childrenIDsByID : Op World JSON;
  messageIDsByIndex : Op World JSON;
  sendMessage : Op World messageCreatedResponse;
  messageByTransactionID : Op World JSON;
  milestoneByIndex : Op World JSON;
  milestoneUTXOChangesByIndex : Op World JSON;
  outputs : Op World JSON;
  outputByID : Op World JSON;
  outputsIDsByBech32Address : Op World JSON;
  outputsIDsByEd25519Address : Op World JSON;
  outputsIDsByAliasAddress : Op World JSON;
  outputsIDsByNFTAddress : Op World JSON;
  aliasByID : Op World JSON;
  nftByID : Op World JSON;
  foundryByID : Op World JSON;
  treasury : Op World JSON;
  receipts : Op World JSON;
  receiptsByMigratedAtIndex : Op World JSON;
  getPeer : Op World JSON;
  removePeer : Op World unit;
  listPeers : Op World JSON;
  addPeer : Op World JSON;
  pruneDatabase : Op World JSON;
  createSnapshots : Op World JSON
}.

Context (x : Operations).

(** [configure].  [restapiSkipped] is the value of
    [Plugin.Node.IsSkipped(restapi.Plugin)], [g] holds the package
    variables on entry and [e] the routes already on the Echo instance
    behind [deps.Echo].  The function does not test [deps.Echo]: on a nil
    instance the registrations dereference nil and the process dies of
    the runtime panic. *)
Definition configure (restapiSkipped : bool) (deps : dependencies)
    (g : Globals) (e : Router World) : Startup World :=
  (* check if RestAPI plugin is disabled *)
  if restapiSkipped then
    LogPanic "RestAPI plugin needs to be enabled to use the RestAPIV1 plugin"
  else
    match Echo deps with
    | None => NilPointerPanic
    | Some _ =>
        let routeGroup := Group "/api/v1" in
        let powEnabled' := Configuration_Bool (NodeConfig deps) (CfgRestAPIPoWEnabled x) in
        let powWorkerCount' := Configuration_Int (NodeConfig deps) (CfgRestAPIPoWWorkerCount x) in
        (* Check for features *)
        let features' := [] in
        let features' := if powEnabled' then features' ++ ["PoW"] else features' in
        Configured
          {| powEnabled := powEnabled';
             powWorkerCount := powWorkerCount';
             features := features' |}
          (statements [
             Group_GET routeGroup RouteInfo (fun c =>
               resp <- invoke (info x) ;;
               JSONResponse c StatusOK resp);
             (* only handle tips api calls if the URTS plugin is enabled *)
             when (bool_decide (TipSelector deps <> None))
               (Group_GET routeGroup RouteTips (fun c =>
                  resp <- call (tips x) c ;;
                  JSONResponse c StatusOK resp));
             Group_GET routeGroup RouteMessageMetadata (fun c =>
               resp <- call (messageMetadataByID x) c ;;
               JSONResponse c StatusOK resp);
             Group_GET routeGroup RouteMessageData (fun c =>
               resp <- call (messageByID x) c ;;
               JSONResponse c StatusOK resp);
             Group_GET routeGroup RouteMessageBytes (fun c =>
               resp <- call (messageBytesByID x) c ;;
               Blob StatusOK MIMEOctetStream resp);
             Group_GET routeGroup RouteMessageChildren (fun c =>
               resp <- call (childrenIDsByID x) c ;;
               JSONResponse c StatusOK resp);
             Group_GET routeGroup RouteMessages (fun c =>
               resp <- call (messageIDsByIndex x) c ;;
               JSONResponse c StatusOK resp);
             Group_POST routeGroup RouteMessages (fun c =>
               resp <- call (sendMessage x) c ;;
               _ <- SetHeader HeaderLocation (MessageID resp) ;;
               JSONResponse c StatusCreated (messageCreatedResponse_json resp));
             Group_GET routeGroup RouteTransactionsIncludedMessage (fun c =>
               resp <- call (messageByTransactionID x) c ;;
               JSONResponse c StatusOK resp);
             Group_GET routeGroup RouteMilestone (fun c =>
               resp <- call (milestoneByIndex x) c ;;
               JSONResponse c StatusOK resp);
             Group_GET routeGroup RouteMilestoneUTXOChanges (fun c =>
               resp <- call (milestoneUTXOChangesByIndex x) c ;;
               JSONResponse c StatusOK resp);
             Group_GET routeGroup RouteOutputs (fun c =>
               resp <- call (outputs x) c ;;
               JSONResponse c StatusOK resp);
             Group_GET routeGroup RouteOutput (fun c =>
               resp <- call (outputByID x) c ;;
               JSONResponse c StatusOK resp);
             Group_GET routeGroup RouteAddressBech32Outputs (fun c =>
               resp <- call (outputsIDsByBech32Address x) c ;;
               JSONResponse c StatusOK resp);
             Group_GET routeGroup RouteAddressEd25519Outputs (fun c =>
               resp <- call (outputsIDsByEd25519Address x) c ;;
               JSONResponse c StatusOK resp);
             Group_GET routeGroup RouteAddressAliasOutputs (fun c =>
               resp <- call (outputsIDsByAliasAddress x) c ;;
               JSONResponse c StatusOK resp);
             Group_GET routeGroup RouteAddressNFTOutputs (fun c =>
               resp <- call (outputsIDsByNFTAddress x) c ;;
               JSONResponse c StatusOK resp);
             Group_GET routeGroup RouteAlias (fun c =>
               resp <- call (aliasByID x) c ;;
               JSONResponse c StatusOK resp);
             Group_GET routeGroup RouteNFT (fun c =>
               resp <- call (nftByID x) c ;;
               JSONResponse c StatusOK resp);
             Group_GET routeGroup RouteFoundry (fun c =>
               resp <- call (foundryByID x) c ;;
               JSONResponse c StatusOK resp);
             Group_GET routeGroup RouteTreasury (fun c =>
               resp <- call (treasury x) c ;;
               JSONResponse c StatusOK resp);
             Group_GET routeGroup RouteReceipts (fun c =>
               resp <- call (receipts x) c ;;
               JSONResponse c StatusOK resp);
             Group_GET routeGroup RouteReceiptsMigratedAtIndex (fun c =>
               resp <- call (receiptsByMigratedAtIndex x) c ;;
               JSONResponse c StatusOK resp);
             Group_GET routeGroup RoutePeer (fun c =>
               resp <- call (getPeer x) c ;;
               JSONResponse c StatusOK resp);
             Group_DELETE routeGroup RoutePeer (fun c =>
               _ <- call (removePeer x) c ;;
               NoContent StatusNoContent);
             Group_GET routeGroup RoutePeers (fun c =>
               resp <- call (listPeers x) c ;;
               JSONResponse c StatusOK resp);
             Group_POST routeGroup RoutePeers (fun c =>
               resp <- call (addPeer x) c ;;
               JSONResponse c StatusOK resp);
             Group_POST routeGroup RouteControlDatabasePrune (fun c =>
               resp <- call (pruneDatabase x) c ;;
               JSONResponse c StatusOK resp);
             Group_POST routeGroup RouteControlSnapshotsCreate (fun c =>
               resp <- call (createSnapshots x) c ;;
               JSONResponse c StatusOK resp)
           ] e)
    end.

End Configure.

Arguments Operations : clear implicits.

(** [AddFeature] adds a feature for the RouteInfo endpoint. *)
Definition AddFeature (feature : string) (g : Globals) : Globals :=
  {| powEnabled := powEnabled g;
     powWorkerCount := powWorkerCount g;
     features := features g ++ [feature] |}.

End V1.

(** * Package [debug] *)

Module Debug.

Definition ParameterMessageID : string := "messageID".
Definition ParameterMilestoneIndex : string := "milestoneIndex".

Definition RouteDebugSolidifier : string := "/solidifier".
Definition RouteDebugOutputs : string := "/outputs".
Definition RouteDebugOutputsUnspent : string := "/outputs/unspent".
Definition RouteDebugOutputsSpent : string := "/outputs/spent".
Definition RouteDebugAddresses : string := "/addresses".
Definition RouteDebugAddressesEd25519 : string := "/addresses/ed25519".
Definition RouteDebugMilestoneDiffs : string := "/ms-diff/:" +:+ ParameterMilestoneIndex.
Definition RouteDebugRequests : string := "/requests".
Definition RouteDebugMessageCone : string := "/message-cones/:" +:+ ParameterMessageID.

(** [init] *)
Definition Plugin : nodepkg.Plugin :=
  {| nodepkg.Status := nodepkg.Disabled; nodepkg.Name := "Debug" |}.

(** No field of this struct is tagged optional. *)
Record dependencies : Type := mkDependencies {
  Storage : Handle;
  Tangle : Handle;
  RequestQueue : Handle;
  UTXO : Handle;
  Echo : Handle
}.

Section Configure.
  Context {World : Type}.

(** What the closures call: the solidifier trigger of the tangle and
    the operations of the package kept in its other files. *)
Record Operations : Type := mkOperations {
  TriggerSolidifier : World -> World;
  debugOutputsIDs : Op World JSON;
  debugUnspentOutputsIDs : Op World JSON;
  debugSpentOutputsIDs : Op World JSON;
  debugAddresses : Op World JSON;
  debugAddressesEd25519 : Op World JSON;
  debugMilestoneDiff : Op World JSON;
  debugRequests : Op World JSON;
  debugMessageCone : Op World JSON
}.

Context (x : Operations).

(** A call on a collaborator that returns nothing. *)
Definition perform (f : World -> World) : Act World unit :=
  fun s =>
    ({| node := {| vars := vars (node s); world := f (world (node s)) |};
        resp := resp s |}, Ok tt).

(** [configure]: [e] holds the routes already on the Echo instance
    behind [deps.Echo]. *)
Definition configure (deps : dependencies) (e : Router World) : Router World :=
  let routeGroup := Group "/api/plugins/debug" in
  statements [
    Group_GET routeGroup RouteDebugSolidifier (fun c =>
      _ <- perform (TriggerSolidifier x) ;;
      restapipkg.JSONResponse c StatusOK (JString "solidifier triggered"));
    Group_GET routeGroup RouteDebugOutputs (fun c =>
      resp <- call (debugOutputsIDs x) c ;;
      restapipkg.JSONResponse c StatusOK resp);
    Group_GET routeGroup RouteDebugOutputsUnspent (fun c =>
      resp <- call (debugUnspentOutputsIDs x) c ;;
      restapipkg.JSONResponse c StatusOK resp);
    Group_GET routeGroup RouteDebugOutputsSpent (fun c =>
      resp <- call (debugSpentOutputsIDs x) c ;;
      restapipkg.JSONResponse c StatusOK resp);
    Group_GET routeGroup RouteDebugAddresses (fun c =>
      resp <- call (debugAddresses x) c ;;
      restapipkg.JSONResponse c StatusOK resp);
    Group_GET routeGroup RouteDebugAddressesEd25519 (fun c =>
      resp <- call (debugAddressesEd25519 x) c ;;
      restapipkg.JSONResponse c StatusOK resp);
    Group_GET routeGroup RouteDebugMilestoneDiffs (fun c =>
      resp <- call (debugMilestoneDiff x) c ;;
      restapipkg.JSONResponse c StatusOK resp);
    Group_GET routeGroup RouteDebugRequests (fun c =>
      resp <- call (debugRequests x) c ;;
      restapipkg.JSONResponse c StatusOK resp);
    Group_GET routeGroup RouteDebugMessageCone (fun c =>
      resp <- call (debugMessageCone x) c ;;
      restapipkg.JSONResponse c StatusOK resp)
  ] e.

End Configure.

Arguments Operations : clear implicits.

End Debug.

(** * The collaborators as the specification describes them

The operations behind the closures are not in the two files.  Where a
property depends on what an operation does, the operation is modelled
here from the specification, over a state holding what the
specification says the collaborators keep. *)

Module Spec.

(** ** Synchronization gate *)

(** Modelled from the spec: the wait itself belongs to the sync manager
    and to the operations, neither among the sources.  Section 4.3 gives
    the gate four states. *)
Inductive Phase : Type := Unchecked | Waiting | Synced | TimedOut.

(** Modelled from the spec: a gate in progress is its state and the
    milliseconds elapsed since the check began (section 4.3). *)
Record Gate : Type := mkGate {
  phase : Phase;
  elapsed : nat
}.

Section Gate.
  (** The bound of the wait, in milliseconds. *)
  Variable deadline : nat.
  (** What the node reports [t] milliseconds after the check began. *)
  Variable synced : nat -> bool.

(** Modelled from the spec: one transition of the gate, section 4.3.
    On entry a node that already reports synced goes straight to
    [Synced], otherwise the gate waits; while waiting, each
    millisecond either reaches the deadline, sees the node synced, or
    keeps waiting; [Synced] and [TimedOut] are final. *)
Definition step (s : Gate) : Gate :=
  match phase s with
  | Unchecked =>
      if synced 0 then {| phase := Synced; elapsed := 0 |}
      else {| phase := Waiting; elapsed := 0 |}
  | Waiting =>
      let t := S (elapsed s) in
      if (deadline <=? t)%nat then {| phase := TimedOut; elapsed := t |}
      else if synced t then {| phase := Synced; elapsed := t |}
      else {| phase := Waiting; elapsed := t |}
  | Synced => s
  | TimedOut => s
  end.

(** Modelled from the spec: the gate of a request at its creation
    (section 4.3). *)
Definition start : Gate := {| phase := Unchecked; elapsed := 0 |}.

(** Modelled from the spec: take steps until the gate is in one of the two
    final states of section 4.3, at most [fuel] of them. *)
Fixpoint run (fuel : nat) (s : Gate) : Gate :=
  match fuel with
  | O => s
  | S fuel' =>
      match phase s with
      | Synced | TimedOut => s
      | Unchecked | Waiting => run fuel' (step s)
      end
  end.

(** Modelled from the spec: the whole wait of section 4.3, from
    [Unchecked] until a final state; one step for the entry check and
    one per millisecond up to the deadline. *)
Definition WaitForNodeSynced : Gate :=
  run (S (S deadline)) start.

End Gate.

(** Modelled from the spec: the arrows of the state machine of section
    4.3, [Unchecked -> Waiting -> {Synced, TimedOut}], with the direct
    arrow to [Synced] for a node that reports synced on entry. *)
Inductive transition : Phase -> Phase -> Prop :=
| t_enter_synced : transition Unchecked Synced
| t_enter_waiting : transition Unchecked Waiting
| t_keep_waiting : transition Waiting Waiting
| t_become_synced : transition Waiting Synced
| t_time_out : transition Waiting TimedOut.

(** Modelled from the spec: a gate that has reached one of the two final
    states of section 4.3. *)
Definition final (s : Gate) : Prop :=
  phase s = Synced \/ phase s = TimedOut.

(** ** State of the collaborators *)

(** Modelled from the spec: what the collaborators hold as far as the
    specification speaks of it: a millisecond clock and the sync
    manager's report over time (section 4.3), the peer membership of the
    peering collaborator (sections 4.2 and 5) and the stored messages
    (section 8). *)
Record World : Type := mkWorld {
  clock : nat;
  syncedAt : nat -> bool;
  peers : gmap string JSON;
  messages : gmap string (list Byte.byte)
}.

(** Modelled from the spec: the checks the specification leaves to the
    collaborators: the syntactic shape of a peer identifier and of a
    message body (section 3), the proof-of-work stamp of a submitted
    message (section 8) and the identifier a message gets (section
    4.2). *)
Record Backend : Type := mkBackend {
  validPeerID : string -> bool;
  wellFormed : list Byte.byte -> bool;
  proofOfWorkSufficient : list Byte.byte -> bool;
  messageIDOf : list Byte.byte -> string
}.

(** The timeout of the source, [waitForNodeSyncedTimeout], as a number of
    milliseconds. *)
Definition deadlineMillis : nat :=
  Z.to_nat (V1.waitForNodeSyncedTimeout / V1.Millisecond).

(** Modelled from the spec: the node [t] milliseconds later; a wait
    changes nothing but the time (section 5). *)
Definition advance (t : nat) (n : Node World) : Node World :=
  {| vars := vars n;
     world := {| clock := (clock (world n) + t)%nat;
                 syncedAt := syncedAt (world n);
                 peers := peers (world n);
                 messages := messages (world n) |} |}.

(** Modelled from the spec: a gated operation (section 4.3) first waits
    for the node to be synced, bounded by [waitForNodeSyncedTimeout];
    it runs the operation when the gate ends in [Synced] and fails with
    [ErrNodeNotSync] when it ends in [TimedOut]. *)
Definition gated {A : Type} (op : Op World A) : Op World A :=
  fun c n =>
    let gate := WaitForNodeSynced deadlineMillis
                  (fun t => syncedAt (world n) (clock (world n) + t)%nat) in
    let n' := advance (elapsed gate) n in
    match phase gate with
    | Synced => op c n'
    | _ => (n', Err ErrNodeNotSync)
    end.

(** ** Operations *)

(** Modelled from the spec: the payload of the info route with the two
    fields the example of section 8 shows. *)
Record infoResponse : Type := mkInfoResponse {
  IsSynced : bool;
  Features : list string
}.

Definition infoResponse_json (r : infoResponse) : JSON :=
  JObject [("synced", JBool (IsSynced r));
           ("features", JArray (JString <$> Features r))].

(** Modelled from the spec: [info] is in another file of the package.
    Sections 4.4 and 8: it never fails and reports the sync status and
    the feature list accumulated so far. *)
Definition info (n : Node World) : Node World * result JSON :=
  (n, Ok (infoResponse_json
            {| IsSynced := syncedAt (world n) (clock (world n));
               Features := features (vars n) |})).

Section Operations.
  Variable b : Backend.

(** Modelled from the spec: [sendMessage] is in another file of the
    package.  Sections 4.2, 4.3 and 8: submission is gated; a
    malformed body is an invalid parameter; with proof-of-work enabled
    an absent or insufficient stamp is rejected; an accepted message
    is stored and its identifier returned. *)
Definition sendMessage : Op World V1.messageCreatedResponse :=
  gated (fun c n =>
    if negb (wellFormed b (ReqBody c)) then
      (n, Err (ErrInvalidParameter "invalid message"))
    else if powEnabled (vars n) && negb (proofOfWorkSufficient b (ReqBody c)) then
      (n, Err (ErrProofOfWorkRejected "proof of work rejected"))
    else
      let id := messageIDOf b (ReqBody c) in
      ({| vars := vars n;
          world := {| clock := clock (world n);
                      syncedAt := syncedAt (world n);
                      peers := peers (world n);
                      messages := <[id := ReqBody c]> (messages (world n)) |} |},
       Ok {| V1.MessageID := id |})).

(** Modelled from the spec: [removePeer] is in another file of the
    package.  Sections 4.2 and 8: a malformed identifier is rejected
    before the peering collaborator is asked, an unknown one is not
    found, a known one is removed. *)
Definition removePeer : Op World unit :=
  fun c n =>
    let id := Param c restapipkg.ParameterPeerID in
    if negb (validPeerID b id) then
      (n, Err (ErrInvalidParameter "invalid peerID"))
    else
      match peers (world n) !! id with
      | None => (n, Err (ErrNotFound "peer not found"))
      | Some _ =>
          ({| vars := vars n;
              world := {| clock := clock (world n);
                          syncedAt := syncedAt (world n);
                          peers := delete id (peers (world n));
                          messages := messages (world n) |} |}, Ok tt)
      end.

(** The identifiers of the peers a listing shows. *)
Definition listedPeerIDs (n : Node World) : list string :=
  (map_to_list (peers (world n))).*1.

Definition peer_json (p : string * JSON) : JSON :=
  JObject [("id", JString p.1); ("peer", p.2)].

(** Modelled from the spec: [listPeers] is in another file of the
    package.  Section 4.2: it lists the current peers. *)
Definition listPeers : Op World JSON :=
  fun c n => (n, Ok (JArray (peer_json <$> map_to_list (peers (world n))))).

(** The operations of [v1] with the four modelled ones in place. *)
Definition operations (x : V1.Operations World) : V1.Operations World :=
  {| V1.CfgRestAPIPoWEnabled := V1.CfgRestAPIPoWEnabled x;
     V1.CfgRestAPIPoWWorkerCount := V1.CfgRestAPIPoWWorkerCount x;
     V1.info := info;
     V1.tips := V1.tips x;
     V1.messageMetadataByID := V1.messageMetadataByID x;
     V1.messageByID := V1.messageByID x;
     V1.messageBytesByID := V1.messageBytesByID x;
     V1.childrenIDsByID := V1.childrenIDsByID x;
     V1.messageIDsByIndex := V1.messageIDsByIndex x;
     V1.sendMessage := sendMessage;
     V1.messageByTransactionID := V1.messageByTransactionID x;
     V1.milestoneByIndex := V1.milestoneByIndex x;
     V1.milestoneUTXOChangesByIndex := V1.milestoneUTXOChangesByIndex x;
     V1.outputs := V1.outputs x;
     V1.outputByID := V1.outputByID x;
     V1.outputsIDsByBech32Address := V1.outputsIDsByBech32Address x;
     V1.outputsIDsByEd25519Address := V1.outputsIDsByEd25519Address x;
     V1.outputsIDsByAliasAddress := V1.outputsIDsByAliasAddress x;
     V1.outputsIDsByNFTAddress := V1.outputsIDsByNFTAddress x;
     V1.aliasByID := V1.aliasByID x;
     V1.nftByID := V1.nftByID x;
     V1.foundryByID := V1.foundryByID x;
     V1.treasury := V1.treasury x;
     V1.receipts := V1.receipts x;
     V1.receiptsByMigratedAtIndex := V1.receiptsByMigratedAtIndex x;
     V1.getPeer := V1.getPeer x;
     V1.removePeer := removePeer;
     V1.listPeers := listPeers;
     V1.addPeer := V1.addPeer x;
     V1.pruneDatabase := V1.pruneDatabase x;
     V1.createSnapshots := V1.createSnapshots x |}.

End Operations.

(** ** Startup *)

Section Startup.
  Context {World : Type}.

(** Modelled from the spec: the node framework, which is not among the
    sources, invokes the plugin's [DepsFunc] and then its [configure];
    by section 4.1 a bundle that cannot be filled is a fatal startup
    error, raised before [configure] runs. *)
Definition startup (x : V1.Operations World) (c : V1.Container) (restapiSkipped : bool)
    (g : Globals) (e : Router World) : Startup World :=
  match V1.DepsFunc c with
  | None => LogPanic "missing dependencies"
  | Some deps => V1.configure x restapiSkipped deps g e
  end.

(** The package variables after a list of [AddFeature] calls. *)
Definition contributions (fs : list string) (g : Globals) : Globals :=
  foldl (fun g' feature => V1.AddFeature feature g') g fs.

(** Modelled from the spec: the startup window of section 4.4 as the
    gateway sees it: modules call [AddFeature] before and after the
    gateway's own [configure], then serving begins. *)
Definition startupWindow (x : V1.Operations World) (restapiSkipped : bool)
    (deps : V1.dependencies) (before after : list string) (e : Router World)
    : Startup World :=
  match V1.configure x restapiSkipped deps (contributions before zeroGlobals) e with
  | Configured g e' => Configured (contributions after g) e'
  | LogPanic msg => LogPanic msg
  | NilPointerPanic => NilPointerPanic
  end.

End Startup.

End Spec.

(** * Derived notions used to state the properties *)

Section Derived.
  Context {World : Type}.

(** A statement that only adds routes behind those already there. *)
Definition appends (step : Router World -> Router World) : Prop :=
  exists rs, forall e, step e = e ++ rs.

(** A route whose template does not match the path. *)
Definition unmatched (path : string) (r : Route World) : Prop :=
  matchPath (RoutePath r) path = None.

Global Instance unmatched_dec path (r : Route World) : Decision (unmatched path r).
Proof. unfold unmatched. apply _. Defined.

Context (x : V1.Operations World).

(** The routes [configure] adds to an empty Echo instance. *)
Definition v1Routes (deps : V1.dependencies) : Router World :=
  match V1.configure x false deps zeroGlobals [] with
  | Configured _ e => e
  | _ => []
  end.

(** The package variables [configure] leaves behind. *)
Definition v1Globals (deps : V1.dependencies) : Globals :=
  let pow := Configuration_Bool (V1.NodeConfig deps) (V1.CfgRestAPIPoWEnabled x) in
  {| powEnabled := pow;
     powWorkerCount := Configuration_Int (V1.NodeConfig deps) (V1.CfgRestAPIPoWWorkerCount x);
     features := if pow then ["PoW"] else [] |}.

End Derived.

(** The prefixes of the two route groups. *)
Definition v1Prefix : string := Group "/api/v1".
Definition debugPrefix : string := Group "/api/plugins/debug".

(** The paths of the tips, info, submission and peer-listing routes. *)
Definition tipsPath : string := v1Prefix +:+ V1.RouteTips.
Definition infoPath : string := v1Prefix +:+ V1.RouteInfo.
Definition messagesPath : string := v1Prefix +:+ V1.RouteMessages.
Definition peersPath : string := v1Prefix +:+ V1.RoutePeers.


(** What a handler that ends without error leaves on the wire when it
    sends [out] through [JSONResponse] with status [code], and what the
    error handler sends otherwise. *)
Definition reply {World : Type} (code : Z) (out : Node World * result JSON)
    : Node World * Response :=
  match out with
  | (n, Ok v) =>
      (n, {| Status := code;
             Header := {[ HeaderContentType := MIMEApplicationJSONCharsetUTF8 ]};
             Written := BodyJSON (JObject [("data", v)]) |})
  | (n, Err e) => (n, HTTPErrorHandler e)
  end.

(** The method and template of every route, in registration order. *)
Definition surface {World : Type} (e : Router World) : list (Method * string) :=
  (fun r => (RouteMethod r, RoutePath r)) <$> e.

(** The request a handler sees once the router has bound the path
    parameters [ps]. *)
Definition routed (m : Method) (path : string) (ps : list (string * string))
    (body : list Byte.byte) : Request :=
  {| ReqMethod := m; ReqPath := path; Params := ps; QueryParams := []; ReqBody := body |}.

(** The encoding section 4.5 of the specification gives a route: raw
    bytes for the raw-message-bytes route, an empty body for deletion, a
    structured payload for every other route. *)
Definition specEncoding (m : Method) (path : string) : Encoding :=
  match m with
  | GET => if String.eqb path (v1Prefix +:+ V1.RouteMessageBytes) then RawBytes else Structured
  | DELETE => NoContentBody
  | _ => Structured
  end.

(** A route the lookup of [m] at the segments [path] passes over: it is
    for another method or its template does not match. *)
Definition passedOver {World : Type} (m : Method) (path : list string) (r : Route World) : bool :=
  negb (bool_decide (RouteMethod r = m)) ||
  negb (bool_decide (is_Some (matchSegments (segments (RoutePath r)) path))).

(** Two templates that some path can match both: they have as many
    segments and differ in no position where both are static. *)
Fixpoint overlapping (t1 t2 : list string) : bool :=
  match t1, t2 with
  | [], [] => true
  | s1 :: t1', s2 :: t2' =>
      match paramName s1, paramName s2 with
      | None, None => String.eqb s1 s2 && overlapping t1' t2'
      | _, _ => overlapping t1' t2'
      end
  | _, _ => false
  end.

(** Two routes between which Echo's preference for static over parameter
    segments would have to choose. *)
Definition ambiguous {World : Type} (r1 r2 : Route World) : bool :=
  bool_decide (RouteMethod r1 = RouteMethod r2) &&
  overlapping (segments (RoutePath r1)) (segments (RoutePath r2)).

(** A table without two such routes. *)
Fixpoint unambiguous {World : Type} (e : Router World) : bool :=
  match e with
  | [] => true
  | r :: e' => forallb (fun r' => negb (ambiguous r r')) e' && unambiguous e'
  end.

(** The string a JSON value is, if it is one. *)
Definition asString (v : JSON) : option string :=
  match v with
  | JString s => Some s
  | _ => None
  end.

(** The feature list an info response advertises: the ["features"] array
    of the wrapped payload. *)
Definition featuresOf (out : Response) : option (list string) :=
  match Written out with
  | BodyJSON (JObject [("data", JObject [("synced", _); ("features", JArray items)])]) =>
      mapM asString items
  | _ => None
  end.

(** The feature registry as the specification states it in section 8:
    every string passed to [AddFeature] before serving begins, whether
    before or after the gateway's own [configure], is advertised by the
    info route, in call order. *)
Definition contributionsKept (x : V1.Operations Spec.World) (deps : V1.dependencies)
    (before after : list string) : Prop :=
  forall g e w,
    Spec.startupWindow x false deps before after [] = Configured g e ->
    exists advertised,
      featuresOf (ServeHTTP e (request GET infoPath []) {| vars := g; world := w |}).2
        = Some advertised /\
      sublist (before ++ after) advertised.


(** The info route as the specification states it in section 8: on a
    freshly started node GET answers 200 and the advertised list holds
    ["PoW"] exactly when proof-of-work is enabled in the configuration;
    with proof-of-work disabled and no contribution the list is empty. *)
Definition powAdvertisedIffEnabled (x : V1.Operations Spec.World) (deps : V1.dependencies)
    (before after : list string) : Prop :=
  forall g e w,
    Spec.startupWindow x false deps before after [] = Configured g e ->
    let pow := Configuration_Bool (V1.NodeConfig deps) (V1.CfgRestAPIPoWEnabled x) in
    let served := ServeHTTP e (request GET infoPath []) {| vars := g; world := w |} in
    Status served.2 = StatusOK /\
    exists advertised,
      featuresOf served.2 = Some advertised /\
      ("PoW" ∈ advertised <-> pow = true) /\
      (pow = false -> before ++ after = [] -> advertised = []).


(** ** Notions for the whole route tables *)

(** Segments put back together with slashes. *)
Fixpoint unsegments (l : list string) : string :=
  match l with
  | [] => EmptyString
  | s :: l' =>
      match l' with
      | [] => s
      | _ :: _ => s +:+ "/" +:+ unsegments l'
      end
  end.

(** A template that continues the static segments [pre] by at least one
    more segment. *)
Fixpoint continues (pre tmpl : list string) : bool :=
  match pre, tmpl with
  | [], _ :: _ => true
  | p :: pre', s :: tmpl' =>
      bool_decide (paramName p = None) && String.eqb p s && continues pre' tmpl'
  | _, _ => false
  end.

(** Two tables no path can match a route of each. *)
Definition apart {World : Type} (e1 e2 : Router World) : bool :=
  forallb (fun r1 =>
             forallb (fun r2 => negb (overlapping (segments (RoutePath r1))
                                                  (segments (RoutePath r2)))) e2) e1.

(** The routes [configure] of [debug] adds to an empty Echo instance. *)
Definition debugRoutes {World : Type} (d : Debug.Operations World)
    (deps : Debug.dependencies) : Router World :=
  Debug.configure d deps [].

(** A route that serves the method [m] at [path]. *)
Definition serves {World : Type} (m : Method) (path : string) (r : Route World) : bool :=
  bool_decide (RouteMethod r = m) && bool_decide (is_Some (matchPath (RoutePath r) path)).

(** What a handler leaves on the wire when it answers a finished [out]
    through [c.NoContent], and what the error handler sends otherwise. *)
Definition replyNoContent {World : Type} (out : Node World * result unit)
    : Node World * Response :=
  match out with
  | (n, Ok _) => (n, {| Status := StatusNoContent; Header := ∅; Written := BodyEmpty |})
  | (n, Err e) => (n, HTTPErrorHandler e)
  end.

(** What a handler leaves on the wire when it sends the bytes of [out]
    through [c.Blob] as an octet stream, and what the error handler sends
    otherwise. *)
Definition replyBlob {World : Type} (out : Node World * result (list Byte.byte))
    : Node World * Response :=
  match out with
  | (n, Ok bytes) =>
      (n, {| Status := StatusOK;
             Header := {[ HeaderContentType := MIMEOctetStream ]};
             Written := BodyBlob bytes |})
  | (n, Err e) => (n, HTTPErrorHandler e)
  end.

(** * Concrete inputs

A small node on which the statements below are evaluated: every
operation of the two packages answers at once with a fixed value. *)

Module Example.

Definition answer {A : Type} (a : A) : Op Spec.World A := fun _ n => (n, Ok a).

Definition backend : Spec.Backend :=
  {| Spec.validPeerID := fun id => negb (String.eqb id "");
     Spec.wellFormed := fun body => negb (bool_decide (body = []));
     Spec.proofOfWorkSufficient := fun _ => false;
     Spec.messageIDOf := fun body => "id-" +:+ String.string_of_list_byte body |}.

(** The operations of [v1]: the four modelled ones over [backend], the
    others answering at once. *)
Definition operations : V1.Operations Spec.World :=
  Spec.operations backend
    {| V1.CfgRestAPIPoWEnabled := "restAPI.powEnabled";
       V1.CfgRestAPIPoWWorkerCount := "restAPI.powWorkerCount";
       V1.info := fun n => (n, Ok JNull);
       V1.tips := answer (JArray []);
       V1.messageMetadataByID := answer JNull;
       V1.messageByID := answer JNull;
       V1.messageBytesByID := answer [];
       V1.childrenIDsByID := answer JNull;
       V1.messageIDsByIndex := answer JNull;
       V1.sendMessage := answer {| V1.MessageID := "" |};
       V1.messageByTransactionID := answer JNull;
       V1.milestoneByIndex := answer JNull;
       V1.milestoneUTXOChangesByIndex := answer JNull;
       V1.outputs := answer JNull;
       V1.outputByID := answer JNull;
       V1.outputsIDsByBech32Address := answer JNull;
       V1.outputsIDsByEd25519Address := answer JNull;
       V1.outputsIDsByAliasAddress := answer JNull;
       V1.outputsIDsByNFTAddress := answer JNull;
       V1.aliasByID := answer JNull;
       V1.nftByID := answer JNull;
       V1.foundryByID := answer JNull;
       V1.treasury := answer JNull;
       V1.receipts := answer JNull;
       V1.receiptsByMigratedAtIndex := answer JNull;
       V1.getPeer := answer JNull;
       V1.removePeer := answer tt;
       V1.listPeers := answer JNull;
       V1.addPeer := answer JNull;
       V1.pruneDatabase := answer JNull;
       V1.createSnapshots := answer JNull |}.

Definition configuration (pow : bool) : Configuration :=
  {| Configuration_Bool := fun _ => pow; Configuration_Int := fun _ => 1 |}.

Definition pointer : Handle := HandleAt 1.

(** A container providing every entry, with the given proof-of-work
    setting, tip selector and Echo instance. *)
Definition container (pow : bool) (tipSelector echo : option Handle) : V1.Container :=
  {| V1.cStorage := Some pointer; V1.cSyncManager := Some pointer;
     V1.cTangle := Some pointer; V1.cPeeringManager := Some pointer;
     V1.cGossipService := Some pointer; V1.cUTXOManager := Some pointer;
     V1.cPoWHandler := Some pointer; V1.cMessageProcessor := Some pointer;
     V1.cSnapshotManager := Some pointer; V1.cAppInfo := Some pointer;
     V1.cNodeConfig := Some (configuration pow);
     V1.cPeeringConfigManager := Some pointer; V1.cNetworkID := Some 1;
     V1.cNetworkIDName := Some "private_tangle";
     V1.cDeserializationParameters := Some pointer;
     V1.cMaxDeltaMsgYoungestConeRootIndexToCMI := Some 8;
     V1.cMaxDeltaMsgOldestConeRootIndexToCMI := Some 13;
     V1.cBelowMaxDepth := Some 15; V1.cMinPoWScore := Some pointer;
     V1.cBech32HRP := Some "atoi"; V1.cRestAPILimitsMaxResults := Some 1000;
     V1.cSnapshotsFullPath := Some "snapshots/full_snapshot.bin";
     V1.cSnapshotsDeltaPath := Some "snapshots/delta_snapshot.bin";
     V1.cTipSelector := tipSelector; V1.cEcho := echo |}.

Definition dependencies (pow : bool) (tipSelector echo : option Handle) : V1.dependencies :=
  {| V1.Storage := pointer; V1.SyncManager := pointer; V1.Tangle := pointer;
     V1.PeeringManager := pointer; V1.GossipService := pointer;
     V1.UTXOManager := pointer; V1.PoWHandler := pointer;
     V1.MessageProcessor := pointer; V1.SnapshotManager := pointer;
     V1.AppInfo := pointer; V1.NodeConfig := configuration pow;
     V1.PeeringConfigManager := pointer; V1.NetworkID := 1;
     V1.NetworkIDName := "private_tangle"; V1.DeserializationParameters := pointer;
     V1.MaxDeltaMsgYoungestConeRootIndexToCMI := 8;
     V1.MaxDeltaMsgOldestConeRootIndexToCMI := 13; V1.BelowMaxDepth := 15;
     V1.MinPoWScore := pointer; V1.Bech32HRP := "atoi";
     V1.RestAPILimitsMaxResults := 1000;
     V1.SnapshotsFullPath := "snapshots/full_snapshot.bin";
     V1.SnapshotsDeltaPath := "snapshots/delta_snapshot.bin";
     V1.TipSelector := tipSelector; V1.Echo := echo |}.

(** A node that is not synced and has no peers. *)
Definition unsynced : Spec.World :=
  {| Spec.clock := 0; Spec.syncedAt := fun _ => false;
     Spec.peers := ∅; Spec.messages := ∅ |}.

Definition fresh (g : Globals) : Node Spec.World := {| vars := g; world := unsynced |}.


(** The operations of [debug], answering at once; the solidifier trigger
    advances the clock by one. *)
Definition debugOperations : Debug.Operations Spec.World :=
  {| Debug.TriggerSolidifier := fun w =>
       {| Spec.clock := S (Spec.clock w); Spec.syncedAt := Spec.syncedAt w;
          Spec.peers := Spec.peers w; Spec.messages := Spec.messages w |};
     Debug.debugOutputsIDs := answer JNull;
     Debug.debugUnspentOutputsIDs := answer JNull;
     Debug.debugSpentOutputsIDs := answer JNull;
     Debug.debugAddresses := answer JNull;
     Debug.debugAddressesEd25519 := answer JNull;
     Debug.debugMilestoneDiff := answer JNull;
     Debug.debugRequests := answer JNull;
     Debug.debugMessageCone := answer JNull |}.

Definition debugDependencies : Debug.dependencies :=
  {| Debug.Storage := pointer; Debug.Tangle := pointer; Debug.RequestQueue := pointer;
     Debug.UTXO := pointer; Debug.Echo := pointer |}.

End Example.

(** A backend like the one of the examples that gives every message the
    empty identifier. *)
Definition unnamedBackend : Spec.Backend :=
  {| Spec.validPeerID := Spec.validPeerID Example.backend;
     Spec.wellFormed := Spec.wellFormed Example.backend;
     Spec.proofOfWorkSufficient := Spec.proofOfWorkSufficient Example.backend;
     Spec.messageIDOf := fun _ => "" |}.

(** * Properties *)

(** ** Registration appends routes *)

Section Registration.
  Context {World : Type}.

Lemma appends_add m g p (h : HandlerFunc World) : appends (add m g p h).
Proof. eexists. intros e. reflexivity. Qed.

Lemma appends_when cond (step : Router World -> Router World) :
  appends step -> appends (when cond step).
Proof.
  intros Hstep. destruct cond; [exact Hstep|].
  exists []. intros e. symmetry. apply app_nil_r.
Qed.

Lemma statements_cons step steps (e : Router World) :
  statements (step :: steps) e = statements steps (step e).
Proof. reflexivity. Qed.

Lemma statements_appends steps :
  Forall appends steps ->
  forall e : Router World, statements steps e = e ++ statements steps [].
Proof.
  induction 1 as [|step steps [rs Hrs] _ IH]; intros e.
  - symmetry. apply app_nil_r.
  - rewrite !statements_cons, (IH (step e)), (IH (step [])), !Hrs.
    rewrite app_nil_l. symmetry. apply app_assoc.
Qed.

(** *** Lookup in a router built by appending *)

Lemma findRoute_unmatched (e : Router World) m path :
  Forall (unmatched path) e -> findRoute e m path = Unrouted.
Proof.
  unfold findRoute, unmatched, matchPath.
  induction 1 as [|r e Hr _ IH]; [reflexivity|].
  cbn [findRouteSegments]. rewrite Hr. exact IH.
Qed.

Lemma findRoute_app_unmatched (e1 e2 : Router World) m path :
  Forall (unmatched path) e1 -> findRoute (e1 ++ e2) m path = findRoute e2 m path.
Proof.
  unfold findRoute, unmatched, matchPath.
  induction 1 as [|r e Hr _ IH]; [reflexivity|].
  cbn [app findRouteSegments]. rewrite Hr. exact IH.
Qed.

(** The lookup returns the first route of the method whose template
    matches. *)
Lemma findRouteSegments_at (e : Router World) m path i r ps :
  e !! i = Some r ->
  forallb (passedOver m path) (take i e) = true ->
  RouteMethod r = m ->
  matchSegments (segments (RoutePath r)) path = Some ps ->
  findRouteSegments e m path = Found (RouteHandler r) ps.
Proof.
  revert i. induction e as [|r0 e IH]; intros i Hi Hpass Hm Hps; [discriminate Hi|].
  destruct i as [|i].
  - injection Hi as ->. cbn [findRouteSegments]. rewrite Hps.
    destruct (decide (RouteMethod r = m)); [reflexivity|contradiction].
  - cbn [take forallb] in Hpass. apply andb_prop in Hpass as [Hr0 Hrest].
    specialize (IH i Hi Hrest Hm Hps). cbn [findRouteSegments]. rewrite IH.
    unfold passedOver in Hr0.
    destruct (matchSegments (segments (RoutePath r0)) path) as [ps0|]; [|reflexivity].
    destruct (decide (RouteMethod r0 = m)) as [Heq|]; [|reflexivity].
    rewrite (bool_decide_eq_true_2 _ Heq) in Hr0.
    rewrite bool_decide_eq_true_2 in Hr0 by eauto. discriminate Hr0.
Qed.

End Registration.

Create HintDb routes.
#[local] Hint Resolve appends_add appends_when : routes.

Ltac appending := repeat (apply Forall_cons_2; [solve [auto with routes]|]); apply Forall_nil_2.

(** ** Paths with a parameter *)

Lemma segments_slashFree (s : string) : slashFree s = true -> segments s = [s].
Proof.
  induction s as [|ch s IH]; [reflexivity|].
  cbn [slashFree segments]. destruct (Ascii.eqb ch "/"); [discriminate|].
  cbn [negb andb]. intros Hs. rewrite (IH Hs). reflexivity.
Qed.

(** A slash-free string put behind a template's static part is one more
    segment. *)
Lemma segments_under (static s : string) :
  slashFree s = true ->
  segments (static +:+ "/" +:+ s) = segments static ++ [s].
Proof.
  intros Hs. induction static as [|ch static IH].
  - change (segments ("" +:+ "/" +:+ s)) with ("" :: segments s).
    rewrite (segments_slashFree s Hs). reflexivity.
  - change (String ch static +:+ "/" +:+ s) with (String ch (static +:+ "/" +:+ s)).
    cbn [segments]. rewrite IH.
    destruct (Ascii.eqb ch "/"); [reflexivity|].
    destruct (segments static) as [|seg segs] eqn:E; [|reflexivity].
    destruct static as [|ch' static']; [discriminate E|].
    cbn [segments] in E. destruct (Ascii.eqb ch' "/"); [discriminate E|].
    destruct (segments static'); discriminate E.
Qed.

(** Serve the request of the goal through the [i]-th route of the table:
    the lookup is decided on methods and templates only, the handler is
    then unfolded down to the operation it calls. *)
Ltac route i :=
  unfold ServeHTTP, findRoute, request;
  cbn [ReqMethod ReqPath QueryParams ReqBody];
  rewrite ?segments_under by assumption;
  erewrite (findRouteSegments_at _ _ _ i);
  [ | reflexivity | vm_compute; reflexivity | reflexivity | vm_compute; reflexivity ];
  cbn [RouteHandler];
  unfold runHandler, bind, call, invoke, Debug.perform, SetHeader,
    restapipkg.JSONResponse, JSON_, Blob, NoContent;
  cbn [node resp].

(** Unfold the table of [v1] for an Echo instance that is there, once
    with and once without the tips route. *)
Ltac v1_table Hecho :=
  unfold v1Routes, V1.configure; rewrite Hecho;
  destruct (V1.TipSelector _);
  [ rewrite bool_decide_eq_true_2 by discriminate
  | rewrite bool_decide_eq_false_2 by (let H := fresh in intros H; apply H; reflexivity) ].

(** ** The route table of [v1] *)

Section V1Table.
  Context {World : Type} (x : V1.Operations World).

(** [configure] either panics or adds its routes behind the ones the
    Echo instance already has, whatever the package variables held. *)
Lemma configure_inv restapiSkipped deps g e0 g' e :
  V1.configure x restapiSkipped deps g e0 = Configured g' e ->
  restapiSkipped = false /\ is_Some (V1.Echo deps) /\
  g' = v1Globals x deps /\ e = e0 ++ v1Routes x deps.
Proof.
  unfold V1.configure, v1Routes, v1Globals, V1.configure.
  destruct restapiSkipped; [discriminate|].
  destruct (V1.Echo deps) as [h|]; [|discriminate].
  match goal with
  | |- Configured _ (statements ?steps e0) = _ -> _ =>
      assert (Forall appends steps) as Happ
        by (unfold Group_GET, Group_POST, Group_DELETE; appending);
      pose proof (statements_appends steps Happ e0) as Hrun;
      set (table := steps) in *
  end.
  intros Hc. injection Hc as <- <-.
  split; [reflexivity|]. split; [eauto|].
  split; [destruct (Configuration_Bool _ _); reflexivity|exact Hrun].
Qed.

Lemma configure_run deps g e0 :
  is_Some (V1.Echo deps) ->
  V1.configure x false deps g e0 = Configured (v1Globals x deps) (e0 ++ v1Routes x deps).
Proof.
  intros [h Hh].
  destruct (V1.configure x false deps g e0) as [msg| |g' e] eqn:Hc.
  - unfold V1.configure in Hc. rewrite Hh in Hc. discriminate.
  - unfold V1.configure in Hc. rewrite Hh in Hc. discriminate.
  - apply configure_inv in Hc as (_ & _ & -> & ->). reflexivity.
Qed.

End V1Table.

(** Without a tip selector the table of [v1] has nothing for the tips path. *)
Lemma v1Routes_without_tips {World : Type} (x : V1.Operations World) deps :
  V1.TipSelector deps = None ->
  is_Some (V1.Echo deps) ->
  Forall (unmatched tipsPath) (v1Routes x deps).
Proof.
  intros Htip [h Hecho]. unfold v1Routes, V1.configure. rewrite Hecho, Htip.
  apply (bool_decide_unpack _). vm_compute. reflexivity.
Qed.

(** C1. When the tip selector, the one optional dependency a route group
    needs, is absent at composition time, [configure] registers no route
    for the tips path: on an Echo instance that had none before, no
    registered template matches the path, so a request of any method to
    it is unrouted and answered "not found" (404), not "unavailable" and
    not a 5xx. *)
Theorem tips_unrouted_without_tip_selector
    {World : Type} (x : V1.Operations World) (restapiSkipped : bool)
    (deps : V1.dependencies) (g g' : Globals) (e0 e : Router World) :
  V1.TipSelector deps = None ->
  Forall (unmatched tipsPath) e0 ->
  V1.configure x restapiSkipped deps g e0 = Configured g' e ->
  Forall (unmatched tipsPath) e /\
  Forall (fun r => RoutePath r <> tipsPath) e /\
  forall (m : Method) (body : list Byte.byte) (n : Node World),
    findRoute e m tipsPath = Unrouted /\
    ServeHTTP e (request m tipsPath body) n = (n, HTTPErrorHandler (ErrNotFound "Not Found")) /\
    Status (ServeHTTP e (request m tipsPath body) n).2 = StatusNotFound /\
    Status (ServeHTTP e (request m tipsPath body) n).2 <> StatusServiceUnavailable /\
    Status (ServeHTTP e (request m tipsPath body) n).2 < 500.
Proof.
  intros Htip He0 Hc.
  apply configure_inv in Hc as (_ & Hecho & _ & ->).
  assert (Forall (unmatched tipsPath) (e0 ++ v1Routes x deps)) as Hall.
  { apply Forall_app. split; [exact He0|]. apply v1Routes_without_tips; assumption. }
  split; [exact Hall|]. split.
  - eapply Forall_impl; [exact Hall|]. intros r Hr Heq.
    unfold unmatched in Hr. rewrite Heq in Hr. vm_compute in Hr. discriminate.
  - intros m body n.
    assert (findRoute (e0 ++ v1Routes x deps) m tipsPath = Unrouted) as Hfind
      by (apply findRoute_unmatched; exact Hall).
    unfold ServeHTTP, request. cbn [ReqMethod ReqPath]. rewrite Hfind.
    repeat split; try reflexivity; vm_compute; congruence.
Qed.

(** On the example node without a tip selector, GET on the tips path is
    answered 404. *)
Lemma tips_unrouted_without_tip_selector_witness :
  Status (ServeHTTP (v1Routes Example.operations (Example.dependencies false None (Some Example.pointer)))
            (request GET tipsPath []) (Example.fresh zeroGlobals)).2 = StatusNotFound.
Proof.
  pose proof (tips_unrouted_without_tip_selector Example.operations false
                (Example.dependencies false None (Some Example.pointer))
                zeroGlobals
                (v1Globals Example.operations (Example.dependencies false None (Some Example.pointer)))
                []
                (v1Routes Example.operations (Example.dependencies false None (Some Example.pointer)))
                eq_refl (Forall_nil_2 _) eq_refl) as (_ & _ & H).
  exact (proj1 (proj2 (proj2 (H GET [] (Example.fresh zeroGlobals))))).
Defined.

(** With a tip selector the tips route is there and answers with the
    payload of [tips]. *)
Lemma tips_routed_with_tip_selector
    {World : Type} (x : V1.Operations World) (deps : V1.dependencies) body n :
  is_Some (V1.TipSelector deps) ->
  is_Some (V1.Echo deps) ->
  ServeHTTP (v1Routes x deps) (request GET tipsPath body) n
  = reply StatusOK (V1.tips x {| ReqMethod := GET; ReqPath := tipsPath; Params := [];
                                 QueryParams := []; ReqBody := body |} n).
Proof.
  intros [t Ht] [h Hh]. unfold v1Routes, V1.configure. rewrite Hh, Ht.
  route 1%nat. unfold reply, routed.
  destruct (V1.tips x _ n) as [n' [v|err]]; reflexivity.
Qed.

(** ** No two templates compete for a path

    The lookup above takes the first registered route that matches, Echo
    takes the most specific one.  The two agree on a table in which no
    path matches two routes of one method, and the tables of [v1] and
    [debug] are such. *)

Lemma matchSegments_overlapping (t1 t2 path : list string) ps1 ps2 :
  matchSegments t1 path = Some ps1 ->
  matchSegments t2 path = Some ps2 ->
  overlapping t1 t2 = true.
Proof.
  revert t2 path ps1 ps2.
  induction t1 as [|s1 t1 IH]; intros [|s2 t2] [|p path] ps1 ps2 H1 H2;
    try discriminate; [reflexivity|].
  cbn [matchSegments] in H1, H2. cbn [overlapping].
  destruct (matchSegments t1 path) as [q1|] eqn:Hq1;
    [|destruct (paramName s1); [discriminate|destruct (s1 =? p)%string; discriminate]].
  destruct (matchSegments t2 path) as [q2|] eqn:Hq2;
    [|destruct (paramName s2); [discriminate|destruct (s2 =? p)%string; discriminate]].
  specialize (IH t2 path q1 q2 Hq1 Hq2).
  destruct (paramName s1); [exact IH|].
  destruct (paramName s2); [exact IH|].
  destruct (String.eqb_spec s1 p) as [->|]; [|discriminate].
  destruct (String.eqb_spec s2 p) as [->|]; [|discriminate].
  rewrite String.eqb_refl. exact IH.
Qed.

Lemma unambiguous_matches {World : Type} (e : Router World) i j ri rj path :
  unambiguous e = true ->
  e !! i = Some ri -> e !! j = Some rj -> (i < j)%nat ->
  RouteMethod ri = RouteMethod rj ->
  is_Some (matchSegments (segments (RoutePath ri)) path) ->
  is_Some (matchSegments (segments (RoutePath rj)) path) ->
  False.
Proof.
  revert i j. induction e as [|r e IH]; intros i j He Hi Hj Hij Hm [ps1 H1] [ps2 H2];
    [discriminate Hi|].
  cbn [unambiguous] in He. apply andb_prop in He as [Hr He].
  destruct j as [|j]; [lia|]. destruct i as [|i].
  - injection Hi as ->. cbn in Hj. rewrite forallb_forall in Hr.
    assert (In rj e) as Hin by (apply list_elem_of_In; eapply list_elem_of_lookup_2; exact Hj).
    specialize (Hr rj Hin). unfold ambiguous in Hr.
    rewrite (bool_decide_eq_true_2 _ Hm) in Hr.
    rewrite (matchSegments_overlapping _ _ _ _ _ H1 H2) in Hr. discriminate Hr.
  - apply (IH i j He Hi Hj); [lia|exact Hm|eauto..].
Qed.

(** The two tables together have no competing routes. *)
Lemma tables_unambiguous
    {World : Type} (x : V1.Operations World) (d : Debug.Operations World)
    (vdeps : V1.dependencies) (ddeps : Debug.dependencies) :
  unambiguous (Debug.configure d ddeps (v1Routes x vdeps)) = true.
Proof.
  unfold v1Routes, V1.configure.
  destruct (V1.Echo vdeps); [|vm_compute; reflexivity].
  destruct (V1.TipSelector vdeps);
    [ rewrite bool_decide_eq_true_2 by discriminate
    | rewrite bool_decide_eq_false_2 by (intros H; apply H; reflexivity) ];
    vm_compute; reflexivity.
Qed.

(** ** Startup with a missing entry *)






(** With only the router host missing and the RestAPI plugin not skipped,
    a case the framework does not produce, [configure] goes on to register
    on the nil Echo instance. *)
Lemma startup_without_host (pow : bool) (tipSelector : option Handle) :
  Spec.startup Example.operations (Example.container pow tipSelector None) false zeroGlobals []
  = NilPointerPanic.
Proof. reflexivity. Qed.

(** With the router host missing because the RestAPI plugin is skipped,
    the fatal error is the one [configure] raises. *)
Lemma startup_without_restapi (pow : bool) (tipSelector : option Handle) :
  Spec.startup Example.operations (Example.container pow tipSelector None) true zeroGlobals []
  = LogPanic "RestAPI plugin needs to be enabled to use the RestAPIV1 plugin".
Proof. reflexivity. Qed.

(** With every mandatory entry provided, startup configures the router. *)
Lemma startup_complete (pow : bool) (tipSelector : option Handle) :
  Spec.startup Example.operations (Example.container pow tipSelector (Some Example.pointer))
    false zeroGlobals []
  = Configured
      (v1Globals Example.operations (Example.dependencies pow tipSelector (Some Example.pointer)))
      (v1Routes Example.operations (Example.dependencies pow tipSelector (Some Example.pointer))).
Proof.
  unfold Spec.startup.
  change (V1.DepsFunc (Example.container pow tipSelector (Some Example.pointer)))
    with (Some (Example.dependencies pow tipSelector (Some Example.pointer))).
  apply (configure_run Example.operations _ zeroGlobals []). eauto.
Qed.

(** ** The debug surface *)

(** C9. The debug plugin is created disabled.  Its [configure] puts its
    routes under the prefix [/api/plugins/debug], which no route of [v1]
    shares and which is not under [/api/v1]; the routes are exactly nine
    GET routes: the solidifier trigger, the listings of all, unspent and
    spent output ids, the listings of all and of ed25519 addresses, the
    milestone diff by index, the pending requests and the message cone by
    id, each bound to its operation. *)
Theorem debug_surface
    {World : Type} (d : Debug.Operations World) (deps : Debug.dependencies)
    (x : V1.Operations World) (vdeps : V1.dependencies) :
  nodepkg.Status Debug.Plugin = nodepkg.Disabled /\
  surface (Debug.configure d deps []) =
    [ (GET, "/api/plugins/debug/solidifier");
      (GET, "/api/plugins/debug/outputs");
      (GET, "/api/plugins/debug/outputs/unspent");
      (GET, "/api/plugins/debug/outputs/spent");
      (GET, "/api/plugins/debug/addresses");
      (GET, "/api/plugins/debug/addresses/ed25519");
      (GET, "/api/plugins/debug/ms-diff/:milestoneIndex");
      (GET, "/api/plugins/debug/requests");
      (GET, "/api/plugins/debug/message-cones/:messageID") ] /\
  Forall (fun r => String.prefix (debugPrefix +:+ "/") (RoutePath r) = true /\
                   String.prefix v1Prefix (RoutePath r) = false)
         (Debug.configure d deps []) /\
  Forall (fun r => String.prefix (v1Prefix +:+ "/") (RoutePath r) = true /\
                   String.prefix debugPrefix (RoutePath r) = false)
         (v1Routes x vdeps) /\
  forall (body : list Byte.byte) (n : Node World),
    let e := Debug.configure d deps [] in
    let serve path := ServeHTTP e (request GET path body) n in
    let at_ path ps := routed GET path ps body in
    serve "/api/plugins/debug/solidifier" =
      reply StatusOK ({| vars := vars n; world := Debug.TriggerSolidifier d (world n) |},
                      Ok (JString "solidifier triggered")) /\
    serve "/api/plugins/debug/outputs" =
      reply StatusOK (Debug.debugOutputsIDs d (at_ "/api/plugins/debug/outputs" []) n) /\
    serve "/api/plugins/debug/outputs/unspent" =
      reply StatusOK
        (Debug.debugUnspentOutputsIDs d (at_ "/api/plugins/debug/outputs/unspent" []) n) /\
    serve "/api/plugins/debug/outputs/spent" =
      reply StatusOK
        (Debug.debugSpentOutputsIDs d (at_ "/api/plugins/debug/outputs/spent" []) n) /\
    serve "/api/plugins/debug/addresses" =
      reply StatusOK (Debug.debugAddresses d (at_ "/api/plugins/debug/addresses" []) n) /\
    serve "/api/plugins/debug/addresses/ed25519" =
      reply StatusOK
        (Debug.debugAddressesEd25519 d (at_ "/api/plugins/debug/addresses/ed25519" []) n) /\
    serve "/api/plugins/debug/requests" =
      reply StatusOK (Debug.debugRequests d (at_ "/api/plugins/debug/requests" []) n) /\
    (forall index, slashFree index = true ->
       serve ("/api/plugins/debug/ms-diff" +:+ "/" +:+ index) =
         reply StatusOK
           (Debug.debugMilestoneDiff d
              (at_ ("/api/plugins/debug/ms-diff" +:+ "/" +:+ index)
                   [(Debug.ParameterMilestoneIndex, index)]) n)) /\
    (forall id, slashFree id = true ->
       serve ("/api/plugins/debug/message-cones" +:+ "/" +:+ id) =
         reply StatusOK
           (Debug.debugMessageCone d
              (at_ ("/api/plugins/debug/message-cones" +:+ "/" +:+ id)
                   [(Debug.ParameterMessageID, id)]) n)).
Proof.
  split; [reflexivity|]. split; [vm_compute; reflexivity|].
  split; [repeat (apply Forall_cons_2; [split; vm_compute; reflexivity|]); apply Forall_nil_2|].
  split.
  { unfold v1Routes, V1.configure.
    destruct (V1.Echo vdeps); [|apply Forall_nil_2].
    destruct (V1.TipSelector vdeps);
      repeat (apply Forall_cons_2; [split; vm_compute; reflexivity|]); apply Forall_nil_2. }
  intros body n e serve at_. subst e serve at_. cbv beta.
  unfold Debug.configure, reply, routed. repeat apply conj.
  - route 0%nat. reflexivity.
  - route 1%nat. destruct (Debug.debugOutputsIDs d _ n) as [n' [v|err]]; reflexivity.
  - route 2%nat. destruct (Debug.debugUnspentOutputsIDs d _ n) as [n' [v|err]]; reflexivity.
  - route 3%nat. destruct (Debug.debugSpentOutputsIDs d _ n) as [n' [v|err]]; reflexivity.
  - route 4%nat. destruct (Debug.debugAddresses d _ n) as [n' [v|err]]; reflexivity.
  - route 5%nat. destruct (Debug.debugAddressesEd25519 d _ n) as [n' [v|err]]; reflexivity.
  - route 7%nat. destruct (Debug.debugRequests d _ n) as [n' [v|err]]; reflexivity.
  - intros index Hindex. route 6%nat.
    destruct (Debug.debugMilestoneDiff d _ n) as [n' [v|err]]; reflexivity.
  - intros id Hid. route 8%nat.
    destruct (Debug.debugMessageCone d _ n) as [n' [v|err]]; reflexivity.
Qed.

(** C10. The handler of the debug solidifier trigger has no error branch:
    on every request and from every state it triggers the solidifier,
    ends without error and leaves status 200 with the payload
    ["solidifier triggered"]; served through the router, GET on the
    solidifier path always answers so. *)
Theorem solidifier_trigger_never_fails
    {World : Type} (d : Debug.Operations World) (deps : Debug.dependencies) :
  exists h : HandlerFunc World,
    handlerAt (Debug.configure d deps []) GET (debugPrefix +:+ Debug.RouteDebugSolidifier) = Some h /\
    (forall (c : Request) (s : Exchange World),
       h c s =
         ({| node := {| vars := vars (node s);
                        world := Debug.TriggerSolidifier d (world (node s)) |};
             resp := {| Status := StatusOK;
                        Header := <[HeaderContentType := MIMEApplicationJSONCharsetUTF8]>
                                    (Header (resp s));
                        Written := BodyJSON (JObject [("data", JString "solidifier triggered")]) |} |},
          Ok tt)) /\
    (forall (query : list (string * string)) (body : list Byte.byte) (n : Node World),
       ServeHTTP (Debug.configure d deps [])
         {| ReqMethod := GET; ReqPath := debugPrefix +:+ Debug.RouteDebugSolidifier;
            Params := []; QueryParams := query; ReqBody := body |} n
       = ({| vars := vars n; world := Debug.TriggerSolidifier d (world n) |},
          {| Status := StatusOK;
             Header := {[ HeaderContentType := MIMEApplicationJSONCharsetUTF8 ]};
             Written := BodyJSON (JObject [("data", JString "solidifier triggered")]) |})).
Proof.
  exists (fun c =>
            _ <- Debug.perform (Debug.TriggerSolidifier d) ;;
            restapipkg.JSONResponse c StatusOK (JString "solidifier triggered")).
  split; [reflexivity|]. split.
  - intros c s. reflexivity.
  - intros query body n. reflexivity.
Qed.

(** ** Response encodings *)

(** Unfold a configured router into the list of its routes. *)
Ltac table :=
  unfold v1Routes, V1.configure, Debug.configure, statements, when,
    Group_GET, Group_POST, Group_DELETE, add;
  cbn [foldl app].

(** From a handler run that ended without error, recover what the
    operation returned and what was written. *)
Ltac succeeded H :=
  unfold bind, call, invoke, Debug.perform, SetHeader, restapipkg.JSONResponse,
    JSON_, Blob, NoContent in H;
  repeat match type of H with
    | context [let (_, _) := ?t in _] => destruct t as [? [?|?]]
    end;
  cbn [node resp] in H; try discriminate H;
  injection H as <-.

(** Decide a comparison of two closed strings in the goal. *)
Ltac compare_paths :=
  repeat match goal with
    | |- context [String.eqb ?a ?b] =>
        let v := eval vm_compute in (String.eqb a b) in
        change (String.eqb a b) with v; cbv iota
    end.

(** What every handler of the two tables leaves behind when it ends
    without error. *)
Lemma handlers_encode
    {World : Type} (x : V1.Operations World) (d : Debug.Operations World)
    (vdeps : V1.dependencies) (ddeps : Debug.dependencies) :
  Forall (fun r => forall c s s', RouteHandler r c s = (s', Ok tt) ->
            encodingOf (resp s') = specEncoding (RouteMethod r) (RoutePath r) /\
            (RouteMethod r = GET -> Status (resp s') = StatusOK) /\
            (encodingOf (resp s') = Structured ->
               Header (resp s') !! HeaderContentType = Some MIMEApplicationJSONCharsetUTF8 /\
               exists v, Written (resp s') = BodyJSON (JObject [("data", v)])) /\
            (encodingOf (resp s') = RawBytes ->
               Header (resp s') !! HeaderContentType = Some MIMEOctetStream /\
               RouteMethod r = GET /\
               RoutePath r = v1Prefix +:+ V1.RouteMessageBytes) /\
            (encodingOf (resp s') = NoContentBody ->
               Status (resp s') = StatusNoContent /\ RouteMethod r = DELETE))
    (Debug.configure d ddeps (v1Routes x vdeps)).
Proof.
  table. destruct (V1.Echo vdeps) as [h|]; [destruct (V1.TipSelector vdeps) as [t|]|].
  1: rewrite bool_decide_eq_true_2 by discriminate.
  2: rewrite bool_decide_eq_false_2 by (intros H; apply H; reflexivity).
  all: cbn [foldl app];
    repeat (apply Forall_cons_2;
            [intros c s s' Hrun; cbn [RouteHandler] in Hrun; succeeded Hrun;
             unfold specEncoding;
             cbn [RouteMethod RoutePath resp Status Header Written encodingOf];
             compare_paths; rewrite ?lookup_insert_eq;
             repeat apply conj; try discriminate; eauto|]);
    apply Forall_nil_2.
Qed.

(** C6. Over the routes of both tables, a handler that ends without error
    leaves one of three encodings, and each of the three is the encoding
    of success responses: whenever its operation succeeds, the handler of
    the info route ends with a wrapped structured payload and status 200,
    the handler of the raw-message-bytes route with the bytes of the
    operation as an octet stream and status 200, the handler of the peer
    deletion route with an empty body and status 204.  A raw binary body
    marked octet-stream is left only on GET of the raw-message-bytes
    route and an empty body only on a DELETE route; every other route
    leaves a structured payload in the uniform wrapper.  Every successful
    GET has status 200, so every successful GET but the raw-bytes one
    returns a wrapped structured payload with status 200. *)
Theorem response_encodings
    {World : Type} (x : V1.Operations World) (d : Debug.Operations World)
    (vdeps : V1.dependencies) (ddeps : Debug.dependencies) :
  is_Some (V1.Echo vdeps) ->
  let e := Debug.configure d ddeps (v1Routes x vdeps) in
  (forall r, r ∈ e -> forall c s s', RouteHandler r c s = (s', Ok tt) ->
     encodingOf (resp s') = specEncoding (RouteMethod r) (RoutePath r) /\
     (RouteMethod r = GET -> Status (resp s') = StatusOK) /\
     (encodingOf (resp s') = Structured ->
        Header (resp s') !! HeaderContentType = Some MIMEApplicationJSONCharsetUTF8 /\
        exists v, Written (resp s') = BodyJSON (JObject [("data", v)])) /\
     (encodingOf (resp s') = RawBytes ->
        Header (resp s') !! HeaderContentType = Some MIMEOctetStream /\
        RouteMethod r = GET /\
        RoutePath r = v1Prefix +:+ V1.RouteMessageBytes) /\
     (encodingOf (resp s') = NoContentBody ->
        Status (resp s') = StatusNoContent /\ RouteMethod r = DELETE)) /\
  (forall k : Encoding, exists r, r ∈ e /\ specEncoding (RouteMethod r) (RoutePath r) = k) /\
  (forall r, r ∈ e -> RouteMethod r = GET -> RoutePath r <> v1Prefix +:+ V1.RouteMessageBytes ->
     forall c s s', RouteHandler r c s = (s', Ok tt) ->
       Status (resp s') = StatusOK /\
       exists v, Written (resp s') = BodyJSON (JObject [("data", v)])) /\
  (exists r, r ∈ e /\ RouteMethod r = GET /\ RoutePath r = v1Prefix +:+ V1.RouteInfo /\
     forall c s n' v, V1.info x (node s) = (n', Ok v) ->
       RouteHandler r c s
       = ({| node := n';
             resp := {| Status := StatusOK;
                        Header := <[HeaderContentType := MIMEApplicationJSONCharsetUTF8]>
                                    (Header (resp s));
                        Written := BodyJSON (JObject [("data", v)]) |} |}, Ok tt)) /\
  (exists r, r ∈ e /\ RouteMethod r = GET /\
     RoutePath r = v1Prefix +:+ V1.RouteMessageBytes /\
     forall c s n' bytes, V1.messageBytesByID x c (node s) = (n', Ok bytes) ->
       RouteHandler r c s
       = ({| node := n';
             resp := {| Status := StatusOK;
                        Header := <[HeaderContentType := MIMEOctetStream]> (Header (resp s));
                        Written := BodyBlob bytes |} |}, Ok tt)) /\
  (exists r, r ∈ e /\ RouteMethod r = DELETE /\ RoutePath r = v1Prefix +:+ V1.RoutePeer /\
     forall c s n' u, V1.removePeer x c (node s) = (n', Ok u) ->
       RouteHandler r c s
       = ({| node := n';
             resp := {| Status := StatusNoContent;
                        Header := Header (resp s);
                        Written := BodyEmpty |} |}, Ok tt)).
Proof.
  intros [h Hecho] e.
  pose proof (handlers_encode x d vdeps ddeps) as Hall.
  rewrite Forall_forall in Hall. fold e in Hall.
  split; [exact Hall|]. split; [|split].
  - intros k. subst e. table. rewrite Hecho.
    destruct (V1.TipSelector vdeps) as [t|].
    + rewrite bool_decide_eq_true_2 by discriminate. cbn [foldl app].
      destruct k; eexists.
      * split; [eapply (list_elem_of_lookup_2 _ 0%nat); reflexivity|reflexivity].
      * split; [eapply (list_elem_of_lookup_2 _ 4%nat); reflexivity|reflexivity].
      * split; [eapply (list_elem_of_lookup_2 _ 24%nat); reflexivity|reflexivity].
    + rewrite bool_decide_eq_false_2 by (intros H; apply H; reflexivity). cbn [foldl app].
      destruct k; eexists.
      * split; [eapply (list_elem_of_lookup_2 _ 0%nat); reflexivity|reflexivity].
      * split; [eapply (list_elem_of_lookup_2 _ 3%nat); reflexivity|reflexivity].
      * split; [eapply (list_elem_of_lookup_2 _ 23%nat); reflexivity|reflexivity].
  - intros r Hr Hget Hpath c s s' Hrun.
    destruct (Hall r Hr c s s' Hrun) as (Henc & Hstatus & Hstruct & _).
    split; [exact (Hstatus Hget)|].
    apply Hstruct. rewrite Henc. unfold specEncoding. rewrite Hget.
    destruct (String.eqb_spec (RoutePath r) (v1Prefix +:+ V1.RouteMessageBytes));
      [contradiction|reflexivity].
  - subst e. clear Hall. table. rewrite Hecho.
    destruct (V1.TipSelector vdeps) as [t|].
    + rewrite bool_decide_eq_true_2 by discriminate. cbn [foldl app].
      split; [|split]; eexists.
      * split; [eapply (list_elem_of_lookup_2 _ 0%nat); reflexivity|].
        split; [reflexivity|]. split; [reflexivity|].
        intros c s n' v Hop. cbn [RouteHandler]. unfold bind, invoke, restapipkg.JSONResponse.
        rewrite Hop. reflexivity.
      * split; [eapply (list_elem_of_lookup_2 _ 4%nat); reflexivity|].
        split; [reflexivity|]. split; [reflexivity|].
        intros c s n' bytes Hop. cbn [RouteHandler]. unfold bind, call, invoke.
        rewrite Hop. reflexivity.
      * split; [eapply (list_elem_of_lookup_2 _ 24%nat); reflexivity|].
        split; [reflexivity|]. split; [reflexivity|].
        intros c s n' u Hop. cbn [RouteHandler]. unfold bind, call, invoke.
        rewrite Hop. reflexivity.
    + rewrite bool_decide_eq_false_2 by (intros H; apply H; reflexivity). cbn [foldl app].
      split; [|split]; eexists.
      * split; [eapply (list_elem_of_lookup_2 _ 0%nat); reflexivity|].
        split; [reflexivity|]. split; [reflexivity|].
        intros c s n' v Hop. cbn [RouteHandler]. unfold bind, invoke, restapipkg.JSONResponse.
        rewrite Hop. reflexivity.
      * split; [eapply (list_elem_of_lookup_2 _ 3%nat); reflexivity|].
        split; [reflexivity|]. split; [reflexivity|].
        intros c s n' bytes Hop. cbn [RouteHandler]. unfold bind, call, invoke.
        rewrite Hop. reflexivity.
      * split; [eapply (list_elem_of_lookup_2 _ 23%nat); reflexivity|].
        split; [reflexivity|]. split; [reflexivity|].
        intros c s n' u Hop. cbn [RouteHandler]. unfold bind, call, invoke.
        rewrite Hop. reflexivity.
Qed.

(** On the example node each of the three encodings is the encoding of a
    success response: of the info route, of the raw-message-bytes route
    and of the peer deletion route. *)
Lemma response_encodings_witness :
  let e := Debug.configure Example.debugOperations Example.debugDependencies
             (v1Routes Example.operations
                (Example.dependencies false None (Some Example.pointer))) in
  let c := routed DELETE (peersPath +:+ "/" +:+ "peerA")
             [(restapipkg.ParameterPeerID, "peerA")] [] in
  let s := {| node := {| vars := zeroGlobals;
                         world := {| Spec.clock := 0; Spec.syncedAt := fun _ => true;
                                     Spec.peers := {[ "peerA" := JString "alias-a" ]};
                                     Spec.messages := ∅ |} |};
              resp := freshResponse |} in
  (exists r s', r ∈ e /\ RouteHandler r c s = (s', Ok tt) /\
                encodingOf (resp s') = Structured) /\
  (exists r s', r ∈ e /\ RouteHandler r c s = (s', Ok tt) /\
                encodingOf (resp s') = RawBytes) /\
  (exists r s', r ∈ e /\ RouteHandler r c s = (s', Ok tt) /\
                encodingOf (resp s') = NoContentBody).
Proof.
  intros e c s.
  destruct (response_encodings Example.operations Example.debugOperations
              (Example.dependencies false None (Some Example.pointer))
              Example.debugDependencies
              (ex_intro _ Example.pointer eq_refl))
    as (_ & _ & _ & (r1 & Hin1 & _ & _ & Hrun1) & (r2 & Hin2 & _ & _ & Hrun2)
          & (r3 & Hin3 & _ & _ & Hrun3)).
  split; [|split].
  - exists r1. eexists. split; [exact Hin1|].
    split; [eapply Hrun1; reflexivity|reflexivity].
  - exists r2. eexists. split; [exact Hin2|].
    split; [eapply Hrun2; reflexivity|reflexivity].
  - destruct (V1.removePeer Example.operations c (node s)) as [n' [u|err]] eqn:Hop.
    + exists r3. eexists. split; [exact Hin3|].
      split; [exact (Hrun3 c s n' u Hop)|reflexivity].
    + exfalso. vm_compute in Hop. discriminate Hop.
Defined.

(** ** Message submission *)

(** Whatever [sendMessage] is, when it succeeds the handler of POST
    /messages sets the location header to the returned identifier and
    sends the response struct with status 201. *)
Lemma post_messages_created
    {World : Type} (x : V1.Operations World) (deps : V1.dependencies)
    (body : list Byte.byte) (n n' : Node World) (r : V1.messageCreatedResponse) :
  is_Some (V1.Echo deps) ->
  V1.sendMessage x (routed POST messagesPath [] body) n = (n', Ok r) ->
  ServeHTTP (v1Routes x deps) (request POST messagesPath body) n
  = (n', {| Status := StatusCreated;
            Header := <[HeaderContentType := MIMEApplicationJSONCharsetUTF8]>
                        (<[HeaderLocation := V1.MessageID r]> ∅);
            Written := BodyJSON (JObject [("data", V1.messageCreatedResponse_json r)]) |}).
Proof.
  intros [h Hecho] Hop. v1_table Hecho; [route 7%nat|route 6%nat];
    unfold routed in Hop; rewrite Hop; reflexivity.
Qed.

(** When it fails, the error of [sendMessage] is what the client gets. *)
Lemma post_messages_failed
    {World : Type} (x : V1.Operations World) (deps : V1.dependencies)
    (body : list Byte.byte) (n n' : Node World) (err : error) :
  is_Some (V1.Echo deps) ->
  V1.sendMessage x (routed POST messagesPath [] body) n = (n', Err err) ->
  ServeHTTP (v1Routes x deps) (request POST messagesPath body) n
  = (n', HTTPErrorHandler err).
Proof.
  intros [h Hecho] Hop. v1_table Hecho; [route 7%nat|route 6%nat];
    unfold routed in Hop; rewrite Hop; reflexivity.
Qed.

(** ** The synchronization gate *)

Section GateFacts.
  Variable deadline : nat.
  Variable synced : nat -> bool.

Lemma step_final s : Spec.final s -> Spec.step deadline synced s = s.
Proof. unfold Spec.step. intros [-> | ->]; reflexivity. Qed.

Lemma run_final fuel s : Spec.final s -> Spec.run deadline synced fuel s = s.
Proof. destruct fuel; [reflexivity|]. cbn [Spec.run]. intros [-> | ->]; reflexivity. Qed.

(** Every step either stays in a final state or follows an arrow of the
    state machine. *)
Lemma step_transition s :
  (Spec.final s /\ Spec.step deadline synced s = s) \/
  Spec.transition (Spec.phase s) (Spec.phase (Spec.step deadline synced s)).
Proof.
  unfold Spec.step. destruct (Spec.phase s) eqn:Hs.
  - right. destruct (synced 0); constructor.
  - right. destruct (deadline <=? S (Spec.elapsed s))%nat; [constructor|].
    destruct (synced (S (Spec.elapsed s))); constructor.
  - left. split; [left; exact Hs|reflexivity].
  - left. split; [right; exact Hs|reflexivity].
Qed.

Lemma run_start fuel :
  Spec.run deadline synced (S fuel) Spec.start
  = Spec.run deadline synced fuel
      (if synced 0 then {| Spec.phase := Spec.Synced; Spec.elapsed := 0 |}
       else {| Spec.phase := Spec.Waiting; Spec.elapsed := 0 |}).
Proof. reflexivity. Qed.

Lemma run_wait fuel j :
  Spec.run deadline synced (S fuel) {| Spec.phase := Spec.Waiting; Spec.elapsed := j |}
  = Spec.run deadline synced fuel
      (if (deadline <=? S j)%nat then {| Spec.phase := Spec.TimedOut; Spec.elapsed := S j |}
       else if synced (S j) then {| Spec.phase := Spec.Synced; Spec.elapsed := S j |}
       else {| Spec.phase := Spec.Waiting; Spec.elapsed := S j |}).
Proof. reflexivity. Qed.

(** While the node has not reported synced and the deadline is not
    reached, the gate waits: [k] more milliseconds use up [k] steps. *)
Lemma run_waiting k j fuel :
  (forall t, (j < t <= j + k)%nat -> synced t = false) ->
  (j + k < deadline)%nat ->
  Spec.run deadline synced (k + fuel) {| Spec.phase := Spec.Waiting; Spec.elapsed := j |}
  = Spec.run deadline synced fuel {| Spec.phase := Spec.Waiting; Spec.elapsed := j + k |}.
Proof.
  revert j. induction k as [|k IH]; intros j Hno Hk.
  - rewrite Nat.add_0_r. reflexivity.
  - change (S k + fuel)%nat with (S (k + fuel)). rewrite run_wait.
    destruct (Nat.leb_spec deadline (S j)); [lia|].
    rewrite (Hno (S j)) by lia.
    rewrite (IH (S j)); [|intros t Ht; apply Hno; lia|lia].
    replace (S j + k)%nat with (j + S k)%nat by lia. reflexivity.
Qed.

(** From the start, a node that has not reported synced up to
    millisecond [k] before the deadline leaves the gate waiting. *)
Lemma run_from_start k fuel :
  (forall t, (t <= k)%nat -> synced t = false) ->
  (k < deadline)%nat ->
  Spec.run deadline synced (S k + fuel) Spec.start
  = Spec.run deadline synced fuel {| Spec.phase := Spec.Waiting; Spec.elapsed := k |}.
Proof.
  intros Hno Hk. change (S k + fuel)%nat with (S (k + fuel)).
  rewrite run_start, (Hno 0%nat) by lia.
  apply (run_waiting k 0 fuel); [intros t Ht; apply Hno; lia|lia].
Qed.

(** The first report of "synced" before the deadline ends the wait. *)
Lemma wait_synced_first t :
  (t < deadline)%nat ->
  synced t = true ->
  (forall u, (u < t)%nat -> synced u = false) ->
  Spec.WaitForNodeSynced deadline synced = {| Spec.phase := Spec.Synced; Spec.elapsed := t |}.
Proof.
  intros Ht Hsync Hfirst. unfold Spec.WaitForNodeSynced.
  destruct t as [|k].
  - rewrite run_start, Hsync. apply run_final. left. reflexivity.
  - replace (S (S deadline)) with (S k + S (deadline - k))%nat by lia.
    rewrite run_from_start; [|intros u Hu; apply Hfirst; lia|lia].
    rewrite run_wait.
    destruct (Nat.leb_spec deadline (S k)); [lia|]. rewrite Hsync.
    apply run_final. left. reflexivity.
Qed.

(** Below any bound, either no report is "synced" or there is a first one. *)
Lemma first_synced bound :
  (forall u, (u < bound)%nat -> synced u = false) \/
  (exists t, (t < bound)%nat /\ synced t = true /\ forall u, (u < t)%nat -> synced u = false).
Proof.
  induction bound as [|bound [Hnone | (t & Ht & Hsync & Hfirst)]].
  - left. intros u Hu. lia.
  - destruct (synced bound) eqn:Hb.
    + right. exists bound. split; [lia|]. split; [exact Hb|exact Hnone].
    + left. intros u Hu. destruct (decide (u = bound)) as [->|]; [exact Hb|].
      apply Hnone. lia.
  - right. exists t. split; [lia|]. split; assumption.
Qed.

Lemma wait_synced t :
  (t < deadline)%nat ->
  synced t = true ->
  exists t0, (t0 <= t)%nat /\
    Spec.WaitForNodeSynced deadline synced = {| Spec.phase := Spec.Synced; Spec.elapsed := t0 |}.
Proof.
  intros Ht Hsync.
  destruct (first_synced (S t)) as [Hnone | (t0 & Ht0 & Hsync0 & Hfirst)].
  - rewrite Hnone in Hsync; [discriminate|lia].
  - exists t0. split; [lia|]. apply wait_synced_first; [lia|assumption..].
Qed.

(** Without a report of "synced" before it, the deadline ends the wait. *)
Lemma wait_timed_out :
  (0 < deadline)%nat ->
  (forall t, (t < deadline)%nat -> synced t = false) ->
  Spec.WaitForNodeSynced deadline synced
  = {| Spec.phase := Spec.TimedOut; Spec.elapsed := deadline |}.
Proof.
  intros Hpos Hno. unfold Spec.WaitForNodeSynced.
  replace (S (S deadline)) with (S (deadline - 1) + 2)%nat by lia.
  rewrite run_from_start; [|intros u Hu; apply Hno; lia|lia].
  change 2%nat with (S 1). rewrite run_wait.
  destruct (Nat.leb_spec deadline (S (deadline - 1))); [|lia].
  rewrite run_final by (right; reflexivity). f_equal. lia.
Qed.

(** The wait always ends, in one of the two final states and no later
    than the deadline. *)
Lemma wait_ends :
  (0 < deadline)%nat ->
  Spec.final (Spec.WaitForNodeSynced deadline synced) /\
  (Spec.elapsed (Spec.WaitForNodeSynced deadline synced) <= deadline)%nat.
Proof.
  intros Hpos.
  destruct (first_synced deadline) as [Hnone | (t & Ht & Hsync & Hfirst)].
  - rewrite (wait_timed_out Hpos Hnone). split; [right; reflexivity|cbn; lia].
  - rewrite (wait_synced_first t Ht Hsync Hfirst). split; [left; reflexivity|cbn; lia].
Qed.

End GateFacts.

Lemma deadlineMillis_eq : Spec.deadlineMillis = 2000%nat.
Proof. vm_compute. reflexivity. Qed.

(** C2. For a gated request the gate moves along Unchecked, Waiting and
    the two final states Synced and TimedOut only, and always ends in a
    final state within its deadline, which is the 2000 ms of
    [waitForNodeSyncedTimeout] counted from the start of the check.  If
    the node reports synced at some millisecond before the deadline the
    gate ends in Synced and the original operation runs; if it still
    reports not synced at every millisecond up to the deadline the gate
    ends in TimedOut after 2000 ms, the operation is not run and the
    request fails with [ErrNodeNotSync], sent as status 503. *)
Theorem sync_gate_deadline
    {A : Type} (op : Op Spec.World A) (c : Request) (n : Node Spec.World) :
  let report t := Spec.syncedAt (world n) (Spec.clock (world n) + t)%nat in
  let gate := Spec.WaitForNodeSynced Spec.deadlineMillis report in
  (V1.waitForNodeSyncedTimeout = 2000 * V1.Millisecond /\ Spec.deadlineMillis = 2000%nat) /\
  (forall s, (Spec.final s /\ Spec.step Spec.deadlineMillis report s = s) \/
             Spec.transition (Spec.phase s)
               (Spec.phase (Spec.step Spec.deadlineMillis report s))) /\
  (Spec.final gate /\ (Spec.elapsed gate <= 2000)%nat) /\
  (forall t, (t < 2000)%nat -> report t = true ->
     exists t0, (t0 <= t)%nat /\
       gate = {| Spec.phase := Spec.Synced; Spec.elapsed := t0 |} /\
       Spec.gated op c n = op c (Spec.advance t0 n)) /\
  ((forall t, (t <= 2000)%nat -> report t = false) ->
     gate = {| Spec.phase := Spec.TimedOut; Spec.elapsed := 2000 |} /\
     Spec.gated op c n = (Spec.advance 2000 n, Err ErrNodeNotSync) /\
     Status (HTTPErrorHandler ErrNodeNotSync) = StatusServiceUnavailable /\
     StatusServiceUnavailable = 503).
Proof.
  intros report gate. subst gate. unfold Spec.gated. fold report.
  pose proof deadlineMillis_eq as Hdeadline. revert Hdeadline.
  generalize Spec.deadlineMillis. intros deadline ->.
  split; [split; reflexivity|].
  split; [intros s; apply step_transition|].
  split; [apply wait_ends; lia|].
  split.
  - intros t Ht Hsync.
    destruct (wait_synced 2000 report t Ht Hsync) as (t0 & Ht0 & Hgate).
    exists t0. split; [exact Ht0|]. split; [exact Hgate|].
    rewrite Hgate. reflexivity.
  - intros Hno.
    assert (Spec.WaitForNodeSynced 2000 report
            = {| Spec.phase := Spec.TimedOut; Spec.elapsed := 2000 |}) as Hgate
      by (apply wait_timed_out; [lia|intros t Ht; apply Hno; lia]).
    split; [exact Hgate|]. split; [|split; reflexivity].
    rewrite Hgate. reflexivity.
Qed.

(** On the example node, which never reports synced, a gated operation
    fails after 2000 ms with [ErrNodeNotSync]. *)
Lemma sync_gate_deadline_witness :
  Spec.gated (Example.answer JNull) (request GET "/api/v1/outputs" [])
    (Example.fresh zeroGlobals)
  = (Spec.advance 2000 (Example.fresh zeroGlobals), Err ErrNodeNotSync).
Proof.
  exact (proj1 (proj2 (proj2 (proj2 (proj2 (proj2
           (sync_gate_deadline (Example.answer JNull) (request GET "/api/v1/outputs" [])
              (Example.fresh zeroGlobals)))))
           (fun t _ => eq_refl)))).
Defined.

(** A node that reports synced from its 1500th millisecond on lets a gated
    operation started at time 0 run, 1500 ms later. *)
Lemma gate_opens_at_1500 (c : Request) (g : Globals) :
  let n := {| vars := g;
              world := {| Spec.clock := 0; Spec.syncedAt := fun t => (1500 <=? t)%nat;
                          Spec.peers := ∅; Spec.messages := ∅ |} |} in
  Spec.gated (Example.answer JNull) c n = (Spec.advance 1500 n, Ok JNull).
Proof.
  intros n. unfold Spec.gated.
  rewrite (wait_synced_first Spec.deadlineMillis _ 1500%nat).
  - reflexivity.
  - rewrite deadlineMillis_eq. lia.
  - reflexivity.
  - intros u Hu. subst n. cbn [world Spec.syncedAt Spec.clock]. apply Nat.leb_gt. lia.
Qed.


(** The example of section 8: on a synced node with proof-of-work
    disabled a well-formed body is accepted at once and gets the
    identifier the backend gives it. *)
Lemma submission_accepted
    (b : Spec.Backend) (body : list Byte.byte) (n : Node Spec.World) :
  Spec.syncedAt (world n) (Spec.clock (world n)) = true ->
  powEnabled (vars n) = false ->
  Spec.wellFormed b body = true ->
  Spec.sendMessage b (routed POST messagesPath [] body) n
  = ({| vars := vars n;
        world := {| Spec.clock := Spec.clock (world n);
                    Spec.syncedAt := Spec.syncedAt (world n);
                    Spec.peers := Spec.peers (world n);
                    Spec.messages := <[Spec.messageIDOf b body := body]>
                                       (Spec.messages (world n)) |} |},
     Ok {| V1.MessageID := Spec.messageIDOf b body |}).
Proof.
  intros Hsynced Hpow Hbody. unfold Spec.sendMessage, Spec.gated.
  rewrite (wait_synced_first Spec.deadlineMillis _ 0%nat).
  - cbn [Spec.phase Spec.elapsed ReqBody routed]. rewrite Hbody.
    unfold Spec.advance. cbn [vars world Spec.clock Spec.syncedAt Spec.peers Spec.messages negb].
    rewrite Hpow, Nat.add_0_r. reflexivity.
  - rewrite deadlineMillis_eq. lia.
  - rewrite Nat.add_0_r. exact Hsynced.
  - intros u Hu. lia.
Qed.

(** A submission the modelled operation accepts returns the identifier
    the backend gives the body. *)
Lemma submission_identifier
    (b : Spec.Backend) (body : list Byte.byte) (n n' : Node Spec.World)
    (r : V1.messageCreatedResponse) :
  Spec.sendMessage b (routed POST messagesPath [] body) n = (n', Ok r) ->
  V1.MessageID r = Spec.messageIDOf b body.
Proof.
  intros Hsend. unfold Spec.sendMessage, Spec.gated in Hsend. cbv zeta in Hsend.
  revert Hsend. generalize (Spec.WaitForNodeSynced Spec.deadlineMillis
    (fun t => Spec.syncedAt (world n) (Spec.clock (world n) + t)%nat)).
  intros gate Hsend.
  destruct (Spec.phase gate); try discriminate Hsend.
  cbn [ReqBody routed] in Hsend.
  destruct (negb (Spec.wellFormed b body)); [discriminate Hsend|].
  destruct (powEnabled _ && negb _); [discriminate Hsend|].
  injection Hsend as _ <-. reflexivity.
Qed.



(** What the client gets there: status 201 and an empty location. *)
Lemma empty_identifier_answered_created :
  let n := {| vars := zeroGlobals;
              world := {| Spec.clock := 0; Spec.syncedAt := fun _ => true;
                          Spec.peers := ∅; Spec.messages := ∅ |} |} in
  let served := ServeHTTP (v1Routes (Spec.operations unnamedBackend Example.operations)
                             (Example.dependencies false None (Some Example.pointer)))
                  (request POST messagesPath [Byte.x01]) n in
  Status served.2 = StatusCreated /\
  Header served.2 !! HeaderLocation = Some "".
Proof.
  intros n served. subst served.
  rewrite (post_messages_created (Spec.operations unnamedBackend Example.operations)
             (Example.dependencies false None (Some Example.pointer)) [Byte.x01] n _ _
             (ex_intro _ Example.pointer eq_refl)
             (submission_accepted unnamedBackend [Byte.x01] n eq_refl eq_refl eq_refl)).
  cbn [snd Status Header V1.MessageID]. split; [reflexivity|].
  rewrite lookup_insert_ne by discriminate. apply lookup_insert_eq.
Qed.

(** ** The feature list *)

Lemma contributions_features (fs : list string) (g : Globals) :
  features (Spec.contributions fs g) = features g ++ fs /\
  powEnabled (Spec.contributions fs g) = powEnabled g /\
  powWorkerCount (Spec.contributions fs g) = powWorkerCount g.
Proof.
  revert g. induction fs as [|f fs IH]; intros g.
  - cbn. rewrite app_nil_r. auto.
  - cbn [Spec.contributions foldl]. fold (Spec.contributions fs (V1.AddFeature f g)).
    destruct (IH (V1.AddFeature f g)) as (-> & -> & ->).
    cbn [V1.AddFeature features powEnabled powWorkerCount].
    rewrite <- app_assoc. auto.
Qed.

Lemma mapM_asString (l : list string) : mapM asString (JString <$> l) = Some l.
Proof.
  induction l as [|s l IH]; [reflexivity|].
  cbn [fmap list_fmap mapM asString]. cbn. rewrite IH. reflexivity.
Qed.

(** Whatever [info] is, the info route answers with its payload. *)
Lemma get_info_served
    {World : Type} (x : V1.Operations World) (deps : V1.dependencies)
    (body : list Byte.byte) (n : Node World) :
  is_Some (V1.Echo deps) ->
  ServeHTTP (v1Routes x deps) (request GET infoPath body) n = reply StatusOK (V1.info x n).
Proof.
  intros [h Hecho]. v1_table Hecho; route 0%nat; unfold reply;
    destruct (V1.info x n) as [n' [v|err]]; reflexivity.
Qed.

(** What the window leaves when [configure] went through: the contributions
    made before it are gone, those made after it follow the "PoW" entry. *)
Lemma startupWindow_inv
    {World : Type} (x : V1.Operations World) (restapiSkipped : bool) (deps : V1.dependencies)
    (before after : list string) (e0 e : Router World) (g : Globals) :
  Spec.startupWindow x restapiSkipped deps before after e0 = Configured g e ->
  is_Some (V1.Echo deps) /\
  e = e0 ++ v1Routes x deps /\
  powEnabled g = Configuration_Bool (V1.NodeConfig deps) (V1.CfgRestAPIPoWEnabled x) /\
  features g = (if powEnabled g then ["PoW"] else []) ++ after.
Proof.
  unfold Spec.startupWindow.
  destruct (V1.configure x restapiSkipped deps _ e0) as [msg| |g1 e1] eqn:Hc; try discriminate.
  intros [= <- <-]. apply configure_inv in Hc as (_ & Hecho & -> & ->).
  destruct (contributions_features after (v1Globals x deps)) as (Hf & Hp & _).
  rewrite Hf, Hp. cbn [v1Globals features powEnabled]. auto.
Qed.

(** The info route on a node configured by [configure] and followed by the
    contributions [after]. *)
Lemma info_after_startup
    (b : Spec.Backend) (x : V1.Operations Spec.World) (deps : V1.dependencies)
    (before after : list string) (g : Globals) (e : Router Spec.World) (w : Spec.World) :
  Spec.startupWindow (Spec.operations b x) false deps before after [] = Configured g e ->
  let pow := Configuration_Bool (V1.NodeConfig deps) (V1.CfgRestAPIPoWEnabled x) in
  let advertised := (if pow then ["PoW"] else []) ++ after in
  ServeHTTP e (request GET infoPath []) {| vars := g; world := w |}
  = ({| vars := g; world := w |},
     {| Status := StatusOK;
        Header := {[ HeaderContentType := MIMEApplicationJSONCharsetUTF8 ]};
        Written := BodyJSON (JObject [("data",
                     Spec.infoResponse_json
                       {| Spec.IsSynced := Spec.syncedAt w (Spec.clock w);
                          Spec.Features := advertised |})]) |}) /\
  featuresOf (ServeHTTP e (request GET infoPath []) {| vars := g; world := w |}).2
  = Some advertised.
Proof.
  intros Hstart pow advertised.
  apply startupWindow_inv in Hstart as (Hecho & -> & Hpow & Hfeatures).
  rewrite app_nil_l, get_info_served by exact Hecho.
  change (V1.info (Spec.operations b x)) with Spec.info.
  unfold Spec.info, reply. cbn [vars world].
  rewrite Hfeatures, Hpow.
  change (V1.CfgRestAPIPoWEnabled (Spec.operations b x)) with (V1.CfgRestAPIPoWEnabled x).
  fold pow. fold advertised. split; [reflexivity|].
  unfold featuresOf, Spec.infoResponse_json. cbn [snd Written Spec.Features].
  apply mapM_asString.
Qed.

(** C5, as the code has it.  [configure] leaves the feature list with
    "PoW" in front exactly when proof-of-work is enabled in the
    configuration, and the contributions made after it behind.  On a
    freshly started node GET /info answers 200 and advertises this list:
    it contains "PoW" exactly when proof-of-work is enabled or a module
    contributed that very string; with proof-of-work disabled and no
    contribution it is empty. *)
Theorem info_advertises_pow
    (b : Spec.Backend) (x : V1.Operations Spec.World) (deps : V1.dependencies)
    (before after : list string) (g : Globals) (e : Router Spec.World) (w : Spec.World) :
  Spec.startupWindow (Spec.operations b x) false deps before after [] = Configured g e ->
  let pow := Configuration_Bool (V1.NodeConfig deps) (V1.CfgRestAPIPoWEnabled x) in
  let served := ServeHTTP e (request GET infoPath []) {| vars := g; world := w |} in
  powEnabled g = pow /\
  features g = (if pow then ["PoW"] else []) ++ after /\
  Status served.2 = StatusOK /\
  exists advertised,
    featuresOf served.2 = Some advertised /\
    advertised = features g /\
    ("PoW" ∈ advertised <-> pow = true \/ "PoW" ∈ after) /\
    (pow = true -> head advertised = Some "PoW") /\
    (pow = false -> after = [] -> advertised = []).
Proof.
  intros Hstart pow served.
  destruct (info_after_startup b x deps before after g e w Hstart) as [Hserved Hfeatures].
  apply startupWindow_inv in Hstart as (_ & _ & Hpow & Hlist).
  change (V1.CfgRestAPIPoWEnabled (Spec.operations b x)) with (V1.CfgRestAPIPoWEnabled x)
    in Hpow.
  fold pow in Hpow. rewrite Hpow in Hlist.
  subst served. split; [exact Hpow|]. split; [exact Hlist|].
  split; [rewrite Hserved; reflexivity|].
  eexists. split; [exact Hfeatures|]. fold pow. split; [symmetry; exact Hlist|].
  split; [|split].
  - rewrite elem_of_app. destruct pow.
    + split; [intros _; left; reflexivity|]. intros _. left. apply list_elem_of_here.
    + split; [intros [Hnil | Hin]; [inversion Hnil|right; exact Hin]|].
      intros [Hpow' | Hin]; [discriminate Hpow'|right; exact Hin].
  - intros ->. reflexivity.
  - intros -> ->. reflexivity.
Qed.

(** On the example node, started with proof-of-work enabled and one other
    contribution, the info route answers 200 and advertises "PoW" first. *)
Lemma info_advertises_pow_witness :
  let served := ServeHTTP (v1Routes Example.operations
                             (Example.dependencies true None (Some Example.pointer)))
                  (request GET infoPath [])
                  {| vars := Spec.contributions ["MQTT"]
                               (v1Globals Example.operations
                                  (Example.dependencies true None (Some Example.pointer)));
                     world := Example.unsynced |} in
  Status served.2 = StatusOK /\
  exists advertised,
    featuresOf served.2 = Some advertised /\
    advertised = ["PoW"; "MQTT"] /\
    "PoW" ∈ advertised.
Proof.
  intros served.
  destruct (info_advertises_pow Example.backend Example.operations
              (Example.dependencies true None (Some Example.pointer))
              [] ["MQTT"] _ _ Example.unsynced eq_refl)
    as (_ & _ & Hstatus & advertised & Hadv & Hlist & Hiff & _).
  split; [exact Hstatus|]. exists advertised.
  split; [exact Hadv|]. split; [exact Hlist|].
  apply Hiff. left. reflexivity.
Defined.

(** The counterexample to the info route as section 8 states it: with
    proof-of-work disabled, a module that contributes the string "PoW"
    after [configure] makes the info route advertise it. *)
Lemma pow_advertised_though_disabled :
  ~ powAdvertisedIffEnabled Example.operations
      (Example.dependencies false None (Some Example.pointer)) [] ["PoW"].
Proof.
  intros Hclaim.
  destruct (Hclaim _ _ Example.unsynced eq_refl) as (_ & advertised & Hadv & Hiff & _).
  vm_compute in Hadv. injection Hadv as <-.
  assert (Configuration_Bool
            (V1.NodeConfig (Example.dependencies false None (Some Example.pointer)))
            (V1.CfgRestAPIPoWEnabled Example.operations) = true) as Hpow.
  { apply Hiff. apply list_elem_of_here. }
  discriminate Hpow.
Qed.

(** The counterexample to the registry property as section 8 states it: a
    feature added before the gateway's [configure] runs is not advertised,
    because [configure] starts the list afresh. *)
Lemma contribution_before_configure_lost :
  ~ contributionsKept Example.operations
      (Example.dependencies false None (Some Example.pointer)) ["MQTT"] [].
Proof.
  intros Hkept.
  destruct (Hkept _ _ Example.unsynced eq_refl) as (advertised & Hadv & Hsub).
  vm_compute in Hadv. injection Hadv as <-.
  apply sublist_nil_r in Hsub. discriminate Hsub.
Qed.

(** C3, as the code has it.  Every [AddFeature] call made after the
    gateway's [configure] has run and before serving begins appends its
    string to the feature list, and every subsequent info response
    advertises these strings in call order, duplicates included, behind
    the "PoW" entry when proof-of-work is enabled; whatever was added
    before [configure] is not part of the list.  The info route leaves the
    node as it was, so the next response is the same. *)
Theorem contributions_after_configure_kept
    (b : Spec.Backend) (x : V1.Operations Spec.World) (deps : V1.dependencies)
    (before after : list string) (g : Globals) (e : Router Spec.World) (w : Spec.World) :
  Spec.startupWindow (Spec.operations b x) false deps before after [] = Configured g e ->
  let pow := Configuration_Bool (V1.NodeConfig deps) (V1.CfgRestAPIPoWEnabled x) in
  let served := ServeHTTP e (request GET infoPath []) {| vars := g; world := w |} in
  features g = (if pow then ["PoW"] else []) ++ after /\
  served.1 = {| vars := g; world := w |} /\
  featuresOf served.2 = Some ((if pow then ["PoW"] else []) ++ after) /\
  (forall feature (gs : Globals),
     features (V1.AddFeature feature gs) = features gs ++ [feature]).
Proof.
  intros Hstart pow served.
  destruct (info_after_startup b x deps before after g e w Hstart) as [Hserved Hfeatures].
  apply startupWindow_inv in Hstart as (_ & _ & Hpow & Hg).
  change (V1.CfgRestAPIPoWEnabled (Spec.operations b x))
    with (V1.CfgRestAPIPoWEnabled x) in Hpow.
  rewrite Hpow in Hg. fold pow in Hg.
  split; [exact Hg|]. subst served. split; [rewrite Hserved; reflexivity|].
  split; [exact Hfeatures|]. intros feature gs. reflexivity.
Qed.

(** On the example node two contributions after [configure], one of them
    made twice, are advertised in call order. *)
Lemma contributions_after_configure_kept_witness :
  featuresOf
    (ServeHTTP (v1Routes Example.operations
                  (Example.dependencies true None (Some Example.pointer)))
       (request GET infoPath [])
       {| vars := Spec.contributions ["MQTT"; "Faucet"; "MQTT"]
                    (v1Globals Example.operations
                       (Example.dependencies true None (Some Example.pointer)));
          world := Example.unsynced |}).2
  = Some ["PoW"; "MQTT"; "Faucet"; "MQTT"].
Proof.
  exact (proj1 (proj2 (proj2
           (contributions_after_configure_kept Example.backend Example.operations
              (Example.dependencies true None (Some Example.pointer))
              ["Lost"] ["MQTT"; "Faucet"; "MQTT"] _ _ Example.unsynced eq_refl)))).
Defined.

(** ** Peers *)

(** The router binds the one parameter of a path; the handler reads it
    back. *)
Lemma Param_routed m path name value body :
  Param (routed m path [(name, value)] body) name = value.
Proof.
  unfold Param, routed. cbn [Params assoc]. rewrite String.eqb_refl. reflexivity.
Qed.

(** Whatever [removePeer] is, DELETE on a peer path runs it with the peer
    identifier bound; its error goes to the error handler, its success is
    answered 204 without a body. *)
Lemma delete_peer_served
    {World : Type} (x : V1.Operations World) (deps : V1.dependencies)
    (id : string) (body : list Byte.byte) (n : Node World) :
  is_Some (V1.Echo deps) ->
  slashFree id = true ->
  let path := peersPath +:+ "/" +:+ id in
  ServeHTTP (v1Routes x deps) (request DELETE path body) n
  = match V1.removePeer x (routed DELETE path [(restapipkg.ParameterPeerID, id)] body) n with
    | (n', Ok _) =>
        (n', {| Status := StatusNoContent; Header := ∅; Written := BodyEmpty |})
    | (n', Err err) => (n', HTTPErrorHandler err)
    end.
Proof.
  intros [h Hecho] Hid path. subst path.
  v1_table Hecho; [route 24%nat|route 23%nat]; unfold routed;
    destruct (V1.removePeer x _ n) as [n' [[]|err]]; reflexivity.
Qed.

(** Whatever [listPeers] is, GET on the peers path answers with its
    payload. *)
Lemma get_peers_served
    {World : Type} (x : V1.Operations World) (deps : V1.dependencies)
    (body : list Byte.byte) (n : Node World) :
  is_Some (V1.Echo deps) ->
  ServeHTTP (v1Routes x deps) (request GET peersPath body) n
  = reply StatusOK (V1.listPeers x (routed GET peersPath [] body) n).
Proof.
  intros [h Hecho].
  v1_table Hecho; [route 25%nat|route 24%nat]; unfold reply, routed;
    destruct (V1.listPeers x _ n) as [n' [v|err]]; reflexivity.
Qed.

(** C7. DELETE /peers/:id with a well-formed identifier of no known peer
    fails as not found (404) and changes nothing; with the identifier of a
    known peer it is answered 204 with an empty body, and the listing GET
    /peers returns afterwards answers 200 with the remaining peers, the
    removed one not among them. *)
Theorem remove_peer
    (b : Spec.Backend) (x : V1.Operations Spec.World) (deps : V1.dependencies)
    (id : string) (n : Node Spec.World) :
  is_Some (V1.Echo deps) ->
  slashFree id = true ->
  Spec.validPeerID b id = true ->
  let e := v1Routes (Spec.operations b x) deps in
  let removed := ServeHTTP e (request DELETE (peersPath +:+ "/" +:+ id) []) n in
  let listed := ServeHTTP e (request GET peersPath []) removed.1 in
  (Spec.peers (world n) !! id = None ->
     removed = (n, HTTPErrorHandler (ErrNotFound "peer not found")) /\
     Status removed.2 = StatusNotFound) /\
  (is_Some (Spec.peers (world n) !! id) ->
     Status removed.2 = StatusNoContent /\
     Written removed.2 = BodyEmpty /\
     Spec.peers (world removed.1) = delete id (Spec.peers (world n)) /\
     Status listed.2 = StatusOK /\
     Written listed.2
       = BodyJSON (JObject [("data",
           JArray (Spec.peer_json <$> map_to_list (delete id (Spec.peers (world n)))))]) /\
     (id ∉ Spec.listedPeerIDs removed.1) /\
     (forall other, other <> id ->
        (other ∈ Spec.listedPeerIDs removed.1 <-> other ∈ Spec.listedPeerIDs n))).
Proof.
  intros Hecho Hid Hvalid e removed listed.
  assert (removed
          = match Spec.peers (world n) !! id with
            | None => (n, HTTPErrorHandler (ErrNotFound "peer not found"))
            | Some _ =>
                ({| vars := vars n;
                    world := {| Spec.clock := Spec.clock (world n);
                                Spec.syncedAt := Spec.syncedAt (world n);
                                Spec.peers := delete id (Spec.peers (world n));
                                Spec.messages := Spec.messages (world n) |} |},
                 {| Status := StatusNoContent; Header := ∅; Written := BodyEmpty |})
            end) as Hremoved.
  { subst removed e. rewrite delete_peer_served by assumption.
    change (V1.removePeer (Spec.operations b x)) with (Spec.removePeer b).
    unfold Spec.removePeer. cbv zeta. rewrite Param_routed, Hvalid. cbn [negb].
    destruct (Spec.peers (world n) !! id); reflexivity. }
  split.
  - intros Hunknown. rewrite Hunknown in Hremoved. rewrite Hremoved. split; reflexivity.
  - intros [p Hknown]. rewrite Hknown in Hremoved.
    subst listed e. rewrite get_peers_served by assumption.
    change (V1.listPeers (Spec.operations b x)) with (Spec.listPeers).
    rewrite Hremoved. unfold Spec.listPeers, reply, Spec.listedPeerIDs.
    cbn [fst snd Status Written world Spec.peers].
    repeat apply conj; try reflexivity.
    + rewrite list_elem_of_fmap. intros ([k v] & -> & Hin).
      apply elem_of_map_to_list in Hin. cbn [fst] in Hin.
      rewrite lookup_delete_eq in Hin. discriminate Hin.
    + intros other Hother. rewrite !list_elem_of_fmap. split.
      * intros ([k v] & -> & Hin). exists (k, v). split; [reflexivity|].
        apply elem_of_map_to_list in Hin. apply elem_of_map_to_list.
        cbn [fst] in Hother. rewrite lookup_delete_ne in Hin by congruence. exact Hin.
      * intros ([k v] & -> & Hin). exists (k, v). split; [reflexivity|].
        apply elem_of_map_to_list in Hin. apply elem_of_map_to_list.
        cbn [fst] in Hother. rewrite lookup_delete_ne by congruence. exact Hin.
Qed.

(** On the example node with the one peer ["peerA"], removing it is
    answered 204 and removing ["peerB"] is answered 404. *)
Lemma remove_peer_witness :
  let n := {| vars := zeroGlobals;
              world := {| Spec.clock := 0; Spec.syncedAt := fun _ => false;
                          Spec.peers := {[ "peerA" := JString "alias-a" ]};
                          Spec.messages := ∅ |} |} in
  let e := v1Routes Example.operations
             (Example.dependencies false None (Some Example.pointer)) in
  Status (ServeHTTP e (request DELETE (peersPath +:+ "/" +:+ "peerA") []) n).2
    = StatusNoContent /\
  Status (ServeHTTP e (request DELETE (peersPath +:+ "/" +:+ "peerB") []) n).2
    = StatusNotFound.
Proof.
  intros n e. split.
  - exact (proj1 (proj2 (remove_peer Example.backend Example.operations
                           (Example.dependencies false None (Some Example.pointer))
                           "peerA" n (ex_intro _ Example.pointer eq_refl) eq_refl eq_refl)
                   (ex_intro _ (JString "alias-a") eq_refl))).
  - exact (proj2 (proj1 (remove_peer Example.backend Example.operations
                           (Example.dependencies false None (Some Example.pointer))
                           "peerB" n (ex_intro _ Example.pointer eq_refl) eq_refl eq_refl)
                   eq_refl)).
Defined.

(** ** The examples of section 8 on the example node *)

(** GET /info on a freshly started, unsynchronized, peerless node with
    proof-of-work disabled: 200 with [{synced:false, features:[]}]. *)
Lemma info_on_fresh_node :
  ServeHTTP (v1Routes Example.operations
               (Example.dependencies false None (Some Example.pointer)))
    (request GET infoPath [])
    (Example.fresh (v1Globals Example.operations
                      (Example.dependencies false None (Some Example.pointer))))
  = (Example.fresh (v1Globals Example.operations
                      (Example.dependencies false None (Some Example.pointer))),
     {| Status := StatusOK;
        Header := {[ HeaderContentType := MIMEApplicationJSONCharsetUTF8 ]};
        Written := BodyJSON (JObject [("data",
                     JObject [("synced", JBool false); ("features", JArray [])])]) |}).
Proof. vm_compute. reflexivity. Qed.

(** A submission to a node that does not get synced within the deadline
    is answered 503, two seconds later, and stores nothing. *)
Lemma submission_not_synced
    (b : Spec.Backend) (x : V1.Operations Spec.World) (deps : V1.dependencies)
    (body : list Byte.byte) (n : Node Spec.World) :
  is_Some (V1.Echo deps) ->
  (forall t, (t < 2000)%nat -> Spec.syncedAt (world n) (Spec.clock (world n) + t)%nat = false) ->
  ServeHTTP (v1Routes (Spec.operations b x) deps) (request POST messagesPath body) n
  = (Spec.advance 2000 n, HTTPErrorHandler ErrNodeNotSync) /\
  Status (HTTPErrorHandler ErrNodeNotSync) = 503.
Proof.
  intros Hecho Hno. split; [|reflexivity].
  apply post_messages_failed; [exact Hecho|].
  change (V1.sendMessage (Spec.operations b x)) with (Spec.sendMessage b).
  unfold Spec.sendMessage, Spec.gated.
  pose proof deadlineMillis_eq as Hdeadline. revert Hdeadline.
  generalize Spec.deadlineMillis. intros deadline ->.
  rewrite wait_timed_out; [reflexivity|lia|exact Hno].
Qed.

(** * Further properties of the two route tables *)

(** ** Splitting and joining paths *)

Lemma segments_nonempty (s : string) : segments s <> [].
Proof.
  destruct s as [|ch s]; [discriminate|].
  cbn [segments]. destruct (Ascii.eqb ch "/"); [discriminate|].
  destruct (segments s); discriminate.
Qed.

Lemma unsegments_cons (s : string) (l : list string) :
  l <> [] -> unsegments (s :: l) = s +:+ "/" +:+ unsegments l.
Proof. destruct l; [contradiction|reflexivity]. Qed.

(** Cutting a path at its slashes loses nothing. *)
Lemma unsegments_segments (s : string) : unsegments (segments s) = s.
Proof.
  induction s as [|ch s IH]; [reflexivity|].
  cbn [segments]. destruct (Ascii.eqb_spec ch "/") as [->|_].
  - rewrite unsegments_cons by apply segments_nonempty. rewrite IH. reflexivity.
  - destruct (segments s) as [|s0 rest] eqn:E; [exfalso; exact (segments_nonempty s E)|].
    rewrite <- IH. destruct rest as [|s1 rest]; reflexivity.
Qed.

(** A path matched by a template that continues static segments begins
    with these segments and goes on. *)
Lemma continues_matched (pre tmpl path : list string) :
  continues pre tmpl = true ->
  is_Some (matchSegments tmpl path) ->
  exists seg rest, path = pre ++ seg :: rest.
Proof.
  revert tmpl path. induction pre as [|p pre IH]; intros tmpl path Hc Hm.
  - destruct tmpl as [|t tmpl]; [discriminate Hc|].
    destruct path as [|seg rest]; [destruct Hm as [? Hm]; discriminate Hm|].
    exists seg, rest. reflexivity.
  - destruct tmpl as [|t tmpl]; [discriminate Hc|].
    cbn [continues] in Hc.
    apply andb_prop in Hc as [Hc Hrest]. apply andb_prop in Hc as [Hstatic Heq].
    apply bool_decide_eq_true_1 in Hstatic. apply String.eqb_eq in Heq. subst t.
    destruct path as [|q path]; [destruct Hm as [? Hm]; discriminate Hm|].
    cbn [matchSegments] in Hm. rewrite Hstatic in Hm.
    destruct (String.eqb_spec p q) as [->|_]; [|destruct Hm as [? Hm]; discriminate Hm].
    destruct (IH tmpl path Hrest Hm) as (seg & rest & ->).
    exists seg, rest. reflexivity.
Qed.

(** The routes of a table under a static prefix are reached by paths
    under this prefix only. *)
Lemma confined {World : Type} (e : Router World) (pre : list string) (path : string) :
  forallb (fun r => continues pre (segments (RoutePath r))) e = true ->
  (forall seg rest, segments path <> pre ++ seg :: rest) ->
  Forall (unmatched path) e.
Proof.
  intros Hall Hout. apply Forall_forall. intros r Hr.
  rewrite forallb_forall in Hall. specialize (Hall r (proj1 (list_elem_of_In _ _) Hr)).
  unfold unmatched, matchPath.
  destruct (matchSegments _ _) as [ps|] eqn:Hm; [|reflexivity].
  destruct (continues_matched _ _ _ Hall (ex_intro _ ps Hm)) as (seg & rest & Hp).
  exfalso. exact (Hout seg rest Hp).
Qed.

Lemma outside_v1 (path : string) :
  String.prefix (v1Prefix +:+ "/") path = false ->
  forall seg rest, segments path <> ["" ; "api"; "v1"] ++ seg :: rest.
Proof.
  intros Hout seg rest Hseg.
  rewrite <- (unsegments_segments path), Hseg in Hout.
  cbn [app] in Hout. rewrite !unsegments_cons in Hout by discriminate.
  revert Hout. generalize (unsegments (seg :: rest)). intros t.
  destruct t; discriminate.
Qed.

Lemma outside_debug (path : string) :
  String.prefix (debugPrefix +:+ "/") path = false ->
  forall seg rest, segments path <> ["" ; "api"; "plugins"; "debug"] ++ seg :: rest.
Proof.
  intros Hout seg rest Hseg.
  rewrite <- (unsegments_segments path), Hseg in Hout.
  cbn [app] in Hout. rewrite !unsegments_cons in Hout by discriminate.
  revert Hout. generalize (unsegments (seg :: rest)). intros t.
  destruct t; discriminate.
Qed.

(** ** Lookups in a table put together from two *)

Section Tables.
  Context {World : Type}.

Lemma findRoute_app_unmatched_r (e1 e2 : Router World) m path :
  Forall (unmatched path) e2 -> findRoute (e1 ++ e2) m path = findRoute e1 m path.
Proof.
  intros Hno. unfold findRoute. induction e1 as [|r e1 IH].
  - exact (findRoute_unmatched e2 m path Hno).
  - cbn [app findRouteSegments]. rewrite IH. reflexivity.
Qed.

(** Of two tables that are apart, a path is matched in one at most. *)
Lemma apart_unmatched (e1 e2 : Router World) path :
  apart e1 e2 = true ->
  Forall (unmatched path) e1 \/ Forall (unmatched path) e2.
Proof.
  intros Hapart.
  destruct (decide (Forall (unmatched path) e1)) as [H1|H1]; [left; exact H1|right].
  apply not_Forall_Exists in H1; [|apply _].
  apply Exists_exists in H1 as (r1 & Hr1 & Hm1).
  unfold apart in Hapart. rewrite forallb_forall in Hapart.
  specialize (Hapart r1 (proj1 (list_elem_of_In _ _) Hr1)).
  rewrite forallb_forall in Hapart.
  apply Forall_forall. intros r2 Hr2.
  specialize (Hapart r2 (proj1 (list_elem_of_In _ _) Hr2)).
  unfold unmatched, matchPath in *. cbn [compose] in Hm1.
  destruct (matchSegments (segments (RoutePath r2)) (segments path)) as [ps2|] eqn:Hm2;
    [|reflexivity].
  destruct (matchSegments (segments (RoutePath r1)) (segments path)) as [ps1|] eqn:Hm1';
    [|contradiction].
  rewrite (matchSegments_overlapping _ _ _ _ _ Hm1' Hm2) in Hapart. discriminate Hapart.
Qed.

Lemma findRoute_app_comm (e1 e2 : Router World) m path :
  apart e1 e2 = true ->
  findRoute (e1 ++ e2) m path = findRoute (e2 ++ e1) m path.
Proof.
  intros Hapart. destruct (apart_unmatched e1 e2 path Hapart) as [H|H].
  - rewrite (findRoute_app_unmatched e1 e2 m path H).
    rewrite (findRoute_app_unmatched_r e2 e1 m path H). reflexivity.
  - rewrite (findRoute_app_unmatched_r e1 e2 m path H).
    rewrite (findRoute_app_unmatched e2 e1 m path H). reflexivity.
Qed.

(** In a table without two ambiguous routes one route at most serves a
    request. *)
Lemma unambiguous_serves (e : list (Route World)) m path :
  unambiguous e = true -> (length (filter (fun r => serves m path r = true) e) <= 1)%nat.
Proof.
  induction e as [|r e IH]; intros Hun; [cbn; lia|].
  cbn [unambiguous] in Hun. apply andb_prop in Hun as [Hr Hun].
  rewrite filter_cons. destruct (decide (serves m path r = true)) as [Hs|Hs]; [|auto].
  assert (forall l : list (Route World),
            Forall (fun r' => serves m path r' <> true) l ->
            filter (fun r' => serves m path r' = true) l = []) as Hnone.
  { induction 1 as [|r' l Hr' _ IHl]; [reflexivity|].
    rewrite filter_cons, decide_False by exact Hr'. exact IHl. }
  rewrite Hnone; [cbn; lia|].
  apply Forall_forall. intros r' Hr' Hs'.
  rewrite forallb_forall in Hr. specialize (Hr r' (proj1 (list_elem_of_In _ _) Hr')).
  unfold serves in Hs, Hs'.
  apply andb_prop in Hs as [Hm Hp]. apply andb_prop in Hs' as [Hm' Hp'].
  apply bool_decide_eq_true_1 in Hm, Hm', Hp, Hp'.
  destruct Hp as [ps Hp]. destruct Hp' as [ps' Hp'].
  unfold ambiguous in Hr.
  rewrite (bool_decide_eq_true_2 _ (eq_trans Hm (eq_sym Hm'))) in Hr.
  rewrite (matchSegments_overlapping _ _ _ _ _ Hp Hp') in Hr. discriminate Hr.
Qed.


End Tables.

(** ** The two tables as a whole *)

(** [configure] of [debug] adds its routes behind those already there. *)
Lemma debug_configure_app {World : Type} (d : Debug.Operations World)
    (deps : Debug.dependencies) (e0 : Router World) :
  Debug.configure d deps e0 = e0 ++ debugRoutes d deps.
Proof.
  unfold debugRoutes, Debug.configure.
  apply statements_appends. unfold Group_GET. appending.
Qed.

(** The templates of [v1] continue the group prefix, and so do those of
    [debug]; no template of one table overlaps one of the other. *)
Lemma tables_confined
    {World : Type} (x : V1.Operations World) (d : Debug.Operations World)
    (vdeps : V1.dependencies) (ddeps : Debug.dependencies) :
  forallb (fun r => continues [""; "api"; "v1"] (segments (RoutePath r)))
          (v1Routes x vdeps) = true /\
  forallb (fun r => continues [""; "api"; "plugins"; "debug"] (segments (RoutePath r)))
          (debugRoutes d ddeps) = true /\
  apart (v1Routes x vdeps) (debugRoutes d ddeps) = true /\
  apart (debugRoutes d ddeps) (v1Routes x vdeps) = true.
Proof.
  unfold v1Routes, V1.configure.
  destruct (V1.Echo vdeps); [|vm_compute; auto].
  destruct (V1.TipSelector vdeps);
    [ rewrite bool_decide_eq_true_2 by discriminate
    | rewrite bool_decide_eq_false_2 by (intros H; apply H; reflexivity) ];
    vm_compute; auto.
Qed.


(** X1. [configure] of [v1] keeps the routes the Echo instance has and
    adds, in this order, one route per statement under the group prefix:
    28 routes whatever the dependencies are, and the tips route in second
    place exactly when the tip selector is there.  Only four routes are
    POST and one is DELETE. *)
Theorem v1_surface
    {World : Type} (x : V1.Operations World) (restapiSkipped : bool)
    (deps : V1.dependencies) (g g' : Globals) (e0 e : Router World) :
  V1.configure x restapiSkipped deps g e0 = Configured g' e ->
  surface e =
    surface e0 ++
    [ (GET, v1Prefix +:+ V1.RouteInfo) ] ++
    (if V1.TipSelector deps is Some _ then [ (GET, v1Prefix +:+ V1.RouteTips) ] else []) ++
    [ (GET, v1Prefix +:+ V1.RouteMessageMetadata);
      (GET, v1Prefix +:+ V1.RouteMessageData);
      (GET, v1Prefix +:+ V1.RouteMessageBytes);
      (GET, v1Prefix +:+ V1.RouteMessageChildren);
      (GET, v1Prefix +:+ V1.RouteMessages);
      (POST, v1Prefix +:+ V1.RouteMessages);
      (GET, v1Prefix +:+ V1.RouteTransactionsIncludedMessage);
      (GET, v1Prefix +:+ V1.RouteMilestone);
      (GET, v1Prefix +:+ V1.RouteMilestoneUTXOChanges);
      (GET, v1Prefix +:+ V1.RouteOutputs);
      (GET, v1Prefix +:+ V1.RouteOutput);
      (GET, v1Prefix +:+ V1.RouteAddressBech32Outputs);
      (GET, v1Prefix +:+ V1.RouteAddressEd25519Outputs);
      (GET, v1Prefix +:+ V1.RouteAddressAliasOutputs);
      (GET, v1Prefix +:+ V1.RouteAddressNFTOutputs);
      (GET, v1Prefix +:+ V1.RouteAlias);
      (GET, v1Prefix +:+ V1.RouteNFT);
      (GET, v1Prefix +:+ V1.RouteFoundry);
      (GET, v1Prefix +:+ V1.RouteTreasury);
      (GET, v1Prefix +:+ V1.RouteReceipts);
      (GET, v1Prefix +:+ V1.RouteReceiptsMigratedAtIndex);
      (GET, v1Prefix +:+ V1.RoutePeer);
      (DELETE, v1Prefix +:+ V1.RoutePeer);
      (GET, v1Prefix +:+ V1.RoutePeers);
      (POST, v1Prefix +:+ V1.RoutePeers);
      (POST, v1Prefix +:+ V1.RouteControlDatabasePrune);
      (POST, v1Prefix +:+ V1.RouteControlSnapshotsCreate) ].
Proof.
  intros Hc. apply configure_inv in Hc as (_ & [h Hecho] & _ & ->).
  unfold surface. rewrite fmap_app. f_equal.
  v1_table Hecho; reflexivity.
Qed.

Lemma v1_surface_witness :
  length (surface (v1Routes Example.operations
                     (Example.dependencies false None (Some Example.pointer)))) = 28%nat /\
  length (surface (v1Routes Example.operations
                     (Example.dependencies false (Some Example.pointer)
                        (Some Example.pointer)))) = 29%nat.
Proof.
  split.
  - pose proof (v1_surface Example.operations false
                  (Example.dependencies false None (Some Example.pointer))
                  zeroGlobals
                  (v1Globals Example.operations
                     (Example.dependencies false None (Some Example.pointer)))
                  []
                  (v1Routes Example.operations
                     (Example.dependencies false None (Some Example.pointer)))
                  eq_refl) as H.
    rewrite H. reflexivity.
  - pose proof (v1_surface Example.operations false
                  (Example.dependencies false (Some Example.pointer) (Some Example.pointer))
                  zeroGlobals
                  (v1Globals Example.operations
                     (Example.dependencies false (Some Example.pointer)
                        (Some Example.pointer)))
                  []
                  (v1Routes Example.operations
                     (Example.dependencies false (Some Example.pointer)
                        (Some Example.pointer)))
                  eq_refl) as H.
    rewrite H. reflexivity.
Defined.

(** X2. Whatever the dependencies, no request is matched by two routes
    of the two tables together: at most one registered route has the
    method of a request and a template its path matches.  The answer to a
    request therefore does not depend on how the router ranks static
    against parameter segments, nor on the order of registration. *)
Theorem one_route_per_request
    {World : Type} (x : V1.Operations World) (d : Debug.Operations World)
    (vdeps : V1.dependencies) (ddeps : Debug.dependencies)
    (m : Method) (path : string) :
  (length (filter (fun r => serves m path r = true)
                  (Debug.configure d ddeps (v1Routes x vdeps))) <= 1)%nat.
Proof.
  apply unambiguous_serves. apply tables_unambiguous.
Qed.

(** X3. The two plugins can be configured in either order: with the
    routes of [debug] registered first, [configure] of [v1] leaves a table
    that answers every request on every node as the table with the routes
    of [v1] first does. *)
Theorem registration_order_irrelevant
    {World : Type} (x : V1.Operations World) (d : Debug.Operations World)
    (vdeps : V1.dependencies) (ddeps : Debug.dependencies) (g : Globals) :
  is_Some (V1.Echo vdeps) ->
  exists e,
    V1.configure x false vdeps g (Debug.configure d ddeps []) = Configured (v1Globals x vdeps) e /\
    forall (req : Request) (n : Node World),
      ServeHTTP e req n = ServeHTTP (Debug.configure d ddeps (v1Routes x vdeps)) req n.
Proof.
  intros Hecho. eexists. split; [apply configure_run; exact Hecho|].
  intros req n. rewrite !debug_configure_app. cbn [app].
  destruct (tables_confined x d vdeps ddeps) as (_ & _ & _ & Hapart).
  unfold ServeHTTP. rewrite (findRoute_app_comm _ _ _ _ Hapart). reflexivity.
Qed.

Lemma registration_order_irrelevant_witness :
  exists e,
    V1.configure Example.operations false
      (Example.dependencies true None (Some Example.pointer)) zeroGlobals
      (Debug.configure Example.debugOperations Example.debugDependencies [])
    = Configured (v1Globals Example.operations
                    (Example.dependencies true None (Some Example.pointer))) e /\
    forall (req : Request) (n : Node Spec.World),
      ServeHTTP e req n
      = ServeHTTP (Debug.configure Example.debugOperations Example.debugDependencies
                     (v1Routes Example.operations
                        (Example.dependencies true None (Some Example.pointer)))) req n.
Proof.
  exact (registration_order_irrelevant Example.operations Example.debugOperations
           (Example.dependencies true None (Some Example.pointer))
           Example.debugDependencies zeroGlobals
           (ex_intro _ Example.pointer eq_refl)).
Defined.

(** X4. Each group serves paths under its own prefix only.  A path that
    does not begin with ["/api/v1/"] reaches no route of [v1], one that
    does not begin with ["/api/plugins/debug/"] reaches no route of
    [debug], whatever the method; a request to a path under neither is
    answered "not found" and leaves the node as it was. *)
Theorem groups_confined_to_prefix
    {World : Type} (x : V1.Operations World) (d : Debug.Operations World)
    (vdeps : V1.dependencies) (ddeps : Debug.dependencies)
    (m : Method) (path : string) :
  (String.prefix (v1Prefix +:+ "/") path = false ->
     findRoute (v1Routes x vdeps) m path = Unrouted) /\
  (String.prefix (debugPrefix +:+ "/") path = false ->
     findRoute (Debug.configure d ddeps []) m path = Unrouted) /\
  (String.prefix (v1Prefix +:+ "/") path = false ->
   String.prefix (debugPrefix +:+ "/") path = false ->
     forall (body : list Byte.byte) (n : Node World),
       ServeHTTP (Debug.configure d ddeps (v1Routes x vdeps)) (request m path body) n
       = (n, HTTPErrorHandler (ErrNotFound "Not Found"))).
Proof.
  destruct (tables_confined x d vdeps ddeps) as (Hv1 & Hdebug & _ & _).
  assert (String.prefix (v1Prefix +:+ "/") path = false ->
          Forall (unmatched path) (v1Routes x vdeps)) as Hout1.
  { intros Hp. exact (confined _ _ _ Hv1 (outside_v1 path Hp)). }
  assert (String.prefix (debugPrefix +:+ "/") path = false ->
          Forall (unmatched path) (debugRoutes d ddeps)) as Hout2.
  { intros Hp. exact (confined _ _ _ Hdebug (outside_debug path Hp)). }
  split; [|split].
  - intros Hp. apply findRoute_unmatched. exact (Hout1 Hp).
  - intros Hp. apply findRoute_unmatched. exact (Hout2 Hp).
  - intros Hp1 Hp2 body n. unfold ServeHTTP, request. cbn [ReqMethod ReqPath].
    rewrite debug_configure_app, findRoute_unmatched; [reflexivity|].
    apply Forall_app. split; [exact (Hout1 Hp1)|exact (Hout2 Hp2)].
Qed.


(** ** What the handlers write *)

(** Run the operation a handler calls first, then what the handler does
    with its outcome. *)
Ltac operate H :=
  unfold bind, call, invoke, Debug.perform, SetHeader, restapipkg.JSONResponse,
    JSON_, Blob, NoContent in H;
  repeat (match type of H with
          | context [let (_, _) := ?t in _] =>
              lazymatch t with
              | context [let (_, _) := _ in _] => fail
              | _ => destruct t as [? [?|?]]
              end
          end; cbv beta iota in H);
  cbn [node resp] in H; try discriminate H.

(** X6. A handler of either table that returns an error has written
    nothing: the status, the headers and the body of the response are
    those it found, so the error handler alone decides what the client
    gets.  In particular a rejected submission sets no location header. *)
Theorem failed_handlers_write_nothing
    {World : Type} (x : V1.Operations World) (d : Debug.Operations World)
    (vdeps : V1.dependencies) (ddeps : Debug.dependencies) :
  Forall (fun r => forall (c : Request) (s s' : Exchange World) (err : error),
            RouteHandler r c s = (s', Err err) -> resp s' = resp s)
    (Debug.configure d ddeps (v1Routes x vdeps)).
Proof.
  table. destruct (V1.Echo vdeps) as [h|]; [destruct (V1.TipSelector vdeps) as [t|]|].
  1: rewrite bool_decide_eq_true_2 by discriminate.
  2: rewrite bool_decide_eq_false_2 by (intros H; apply H; reflexivity).
  all: cbn [foldl app];
    repeat (apply Forall_cons_2;
            [intros c s s' err Hrun; cbn [RouteHandler] in Hrun; operate Hrun;
             injection Hrun as <- <-; reflexivity|]);
    apply Forall_nil_2.
Qed.

(** X7. Status 201 and the location header belong to the submission
    route alone: a handler that ends without error answers 201 exactly
    when it is the one of POST on the messages path, every other POST
    handler (adding a peer, pruning, creating snapshots) answers 200, and
    only the submission handler touches the location header. *)
Theorem created_only_by_submission
    {World : Type} (x : V1.Operations World) (d : Debug.Operations World)
    (vdeps : V1.dependencies) (ddeps : Debug.dependencies) :
  Forall (fun r => forall (c : Request) (s s' : Exchange World),
            RouteHandler r c s = (s', Ok tt) ->
            (Status (resp s') = StatusCreated <->
               RouteMethod r = POST /\ RoutePath r = messagesPath) /\
            (RouteMethod r = POST -> RoutePath r <> messagesPath ->
               Status (resp s') = StatusOK) /\
            (Header (resp s') !! HeaderLocation <> Header (resp s) !! HeaderLocation ->
               RouteMethod r = POST /\ RoutePath r = messagesPath))
    (Debug.configure d ddeps (v1Routes x vdeps)).
Proof.
  table. destruct (V1.Echo vdeps) as [h|]; [destruct (V1.TipSelector vdeps) as [t|]|].
  1: rewrite bool_decide_eq_true_2 by discriminate.
  2: rewrite bool_decide_eq_false_2 by (intros H; apply H; reflexivity).
  all: cbn [foldl app];
    repeat (apply Forall_cons_2;
            [intros c s s' Hrun; cbn [RouteHandler] in Hrun; operate Hrun;
             injection Hrun as <-;
             cbn [RouteMethod RoutePath resp Status Header];
             rewrite ?(lookup_insert_ne (M := gmap string)) by discriminate;
             repeat match goal with
               | |- _ /\ _ => split
               | |- _ <-> _ => split
               | |- _ -> _ => intros ?
               | H : _ /\ _ |- _ => destruct H
               end;
             first [ reflexivity
                   | discriminate
                   | congruence
                   | match goal with
                     | H : _ = messagesPath |- _ => vm_compute in H; discriminate H
                     | H : _ <> messagesPath |- _ => exfalso; apply H; reflexivity
                     end ]|]);
    apply Forall_nil_2.
Qed.

(** ** From a request to the operation behind it *)

Lemma segments_slash (a b0 : string) :
  segments (a +:+ "/" +:+ b0) = segments a ++ segments b0.
Proof.
  induction a as [|ch a IH].
  - change (segments ("" +:+ "/" +:+ b0)) with ("" :: segments b0). reflexivity.
  - change (String ch a +:+ "/" +:+ b0) with (String ch (a +:+ "/" +:+ b0)).
    cbn [segments]. rewrite IH.
    destruct (Ascii.eqb ch "/"); [reflexivity|].
    destruct (segments a) as [|s0 rest] eqn:E; [|reflexivity].
    exfalso. exact (segments_nonempty a E).
Qed.

(** A template matches paths of as many segments as it has only. *)
Lemma matchSegments_length (tmpl path : list string) ps :
  matchSegments tmpl path = Some ps -> length tmpl = length path.
Proof.
  revert path ps. induction tmpl as [|t tmpl IH]; intros [|p path] ps Hm;
    try discriminate Hm; [reflexivity|].
  cbn [matchSegments] in Hm. cbn [length]. f_equal.
  destruct (paramName t).
  - destruct (matchSegments tmpl path) as [ps'|] eqn:Hrest; [|discriminate Hm].
    exact (IH _ _ Hrest).
  - destruct (String.eqb t p); [|discriminate Hm]. exact (IH _ _ Hm).
Qed.

(** The lookup passes over a route of another method, of another number
    of segments or with a template that does not match. *)
Lemma findRouteSegments_at_length
    {World : Type} (e : Router World) m path i r ps :
  e !! i = Some r ->
  forallb (fun r' => negb (length (segments (RoutePath r')) =? length path)%nat ||
                     passedOver m path r')
          (take i e) = true ->
  RouteMethod r = m ->
  matchSegments (segments (RoutePath r)) path = Some ps ->
  findRouteSegments e m path = Found (RouteHandler r) ps.
Proof.
  intros Hi Hover Hmethod Hmatch.
  apply (findRouteSegments_at e m path i r ps Hi); [|exact Hmethod|exact Hmatch].
  rewrite forallb_forall in *. intros r' Hr'. specialize (Hover r' Hr').
  apply orb_prop in Hover as [Hlen|Hover]; [|exact Hover].
  unfold passedOver. apply orb_true_intro. right.
  apply negb_true_iff, bool_decide_eq_false_2. intros [ps' Hm].
  apply matchSegments_length in Hm.
  apply negb_true_iff, Nat.eqb_neq in Hlen. contradiction.
Qed.

(** Serve the request of the goal through the [i]-th route of the table
    when its path has parameters between static segments. *)
Ltac route_within i :=
  unfold ServeHTTP, findRoute, request;
  cbn [ReqMethod ReqPath QueryParams ReqBody];
  rewrite ?segments_slash;
  repeat match goal with
    | H : slashFree ?s = true |- context [segments ?s] => rewrite (segments_slashFree s H)
    end;
  erewrite (findRouteSegments_at_length _ _ _ i);
  [ | reflexivity | vm_compute; reflexivity | reflexivity | vm_compute; reflexivity ];
  cbn [RouteHandler];
  unfold runHandler, bind, call, invoke, Debug.perform, SetHeader,
    restapipkg.JSONResponse, JSON_, Blob, NoContent;
  cbn [node resp].

(** Once the route is found the outcome is that of its operation. *)
Ltac served_at i op :=
  route_within i;
  unfold reply, replyBlob, replyNoContent, routed;
  destruct (op _ _) as [? [?|?]];
  reflexivity.

(** X8. The message routes of [v1], served through the router: the
    segment in the place of the identifier is bound to the parameter of
    the template and the request handed to the operation of the route;
    what the operation returns is wrapped with status 200, its error goes
    to the error handler.  The raw-bytes route sends the bytes of its
    operation unchanged as an octet stream. *)
Theorem v1_message_routes
    {World : Type} (x : V1.Operations World) (deps : V1.dependencies)
    (body : list Byte.byte) (n : Node World) :
  is_Some (V1.Echo deps) ->
  let serve path := ServeHTTP (v1Routes x deps) (request GET path body) n in
  let at_ path ps := routed GET path ps body in
  serve "/api/v1/messages" =
    reply StatusOK (V1.messageIDsByIndex x (at_ "/api/v1/messages" []) n) /\
  (forall id, slashFree id = true ->
     let path := "/api/v1/messages" +:+ "/" +:+ id in
     serve path =
       reply StatusOK (V1.messageByID x (at_ path [(restapipkg.ParameterMessageID, id)]) n)) /\
  (forall id, slashFree id = true ->
     let path := "/api/v1/messages" +:+ "/" +:+ id +:+ "/" +:+ "metadata" in
     serve path =
       reply StatusOK
         (V1.messageMetadataByID x (at_ path [(restapipkg.ParameterMessageID, id)]) n)) /\
  (forall id, slashFree id = true ->
     let path := "/api/v1/messages" +:+ "/" +:+ id +:+ "/" +:+ "raw" in
     serve path =
       replyBlob (V1.messageBytesByID x (at_ path [(restapipkg.ParameterMessageID, id)]) n)) /\
  (forall id, slashFree id = true ->
     let path := "/api/v1/messages" +:+ "/" +:+ id +:+ "/" +:+ "children" in
     serve path =
       reply StatusOK
         (V1.childrenIDsByID x (at_ path [(restapipkg.ParameterMessageID, id)]) n)) /\
  (forall id, slashFree id = true ->
     let path := "/api/v1/transactions" +:+ "/" +:+ id +:+ "/" +:+ "included-message" in
     serve path =
       reply StatusOK
         (V1.messageByTransactionID x
            (at_ path [(restapipkg.ParameterTransactionID, id)]) n)).
Proof.
  intros [h Hecho] serve at_. subst serve at_. cbv beta zeta.
  v1_table Hecho; repeat apply conj; try (intros id Hid; cbv zeta).
  - served_at 6%nat (V1.messageIDsByIndex x).
  - served_at 3%nat (V1.messageByID x).
  - served_at 2%nat (V1.messageMetadataByID x).
  - served_at 4%nat (V1.messageBytesByID x).
  - served_at 5%nat (V1.childrenIDsByID x).
  - served_at 8%nat (V1.messageByTransactionID x).
  - served_at 5%nat (V1.messageIDsByIndex x).
  - served_at 2%nat (V1.messageByID x).
  - served_at 1%nat (V1.messageMetadataByID x).
  - served_at 3%nat (V1.messageBytesByID x).
  - served_at 4%nat (V1.childrenIDsByID x).
  - served_at 7%nat (V1.messageByTransactionID x).
Qed.

Lemma v1_message_routes_witness :
  ServeHTTP (v1Routes Example.operations
               (Example.dependencies false None (Some Example.pointer)))
    (request GET ("/api/v1/messages" +:+ "/" +:+ "4a6f" +:+ "/" +:+ "raw") [])
    (Example.fresh zeroGlobals)
  = replyBlob
      (V1.messageBytesByID Example.operations
         (routed GET ("/api/v1/messages" +:+ "/" +:+ "4a6f" +:+ "/" +:+ "raw")
            [(restapipkg.ParameterMessageID, "4a6f")] [])
         (Example.fresh zeroGlobals)).
Proof.
  exact (proj1 (proj2 (proj2 (proj2
           (v1_message_routes Example.operations
              (Example.dependencies false None (Some Example.pointer))
              [] (Example.fresh zeroGlobals)
              (ex_intro _ Example.pointer eq_refl)))))
           "4a6f" eq_refl).
Defined.

(** X9. The ledger routes of [v1], served through the router: each GET
    reaches the operation registered under its template with the segments
    in the place of the index, the identifier or the address bound to the
    parameter; an address of a given kind is told from a plain one by the
    static segment before it.  The payload is wrapped with status 200, an
    error goes to the error handler. *)
Theorem v1_ledger_routes
    {World : Type} (x : V1.Operations World) (deps : V1.dependencies)
    (body : list Byte.byte) (n : Node World) :
  is_Some (V1.Echo deps) ->
  let serve path := ServeHTTP (v1Routes x deps) (request GET path body) n in
  let at_ path ps := routed GET path ps body in
  let served path ps (op : Op World JSON) := serve path = reply StatusOK (op (at_ path ps) n) in
  served "/api/v1/outputs" [] (V1.outputs x) /\
  served "/api/v1/treasury" [] (V1.treasury x) /\
  served "/api/v1/receipts" [] (V1.receipts x) /\
  (forall index, slashFree index = true ->
     served ("/api/v1/milestones" +:+ "/" +:+ index)
       [(restapipkg.ParameterMilestoneIndex, index)] (V1.milestoneByIndex x) /\
     served ("/api/v1/milestones" +:+ "/" +:+ index +:+ "/" +:+ "utxo-changes")
       [(restapipkg.ParameterMilestoneIndex, index)] (V1.milestoneUTXOChangesByIndex x) /\
     served ("/api/v1/receipts" +:+ "/" +:+ index)
       [(restapipkg.ParameterMilestoneIndex, index)] (V1.receiptsByMigratedAtIndex x)) /\
  (forall id, slashFree id = true ->
     served ("/api/v1/outputs" +:+ "/" +:+ id)
       [(restapipkg.ParameterOutputID, id)] (V1.outputByID x) /\
     served ("/api/v1/aliases" +:+ "/" +:+ id)
       [(restapipkg.ParameterAliasID, id)] (V1.aliasByID x) /\
     served ("/api/v1/nft" +:+ "/" +:+ id)
       [(restapipkg.ParameterNFTID, id)] (V1.nftByID x) /\
     served ("/api/v1/foundries" +:+ "/" +:+ id)
       [(restapipkg.ParameterFoundryID, id)] (V1.foundryByID x)) /\
  (forall addr, slashFree addr = true ->
     served ("/api/v1/addresses" +:+ "/" +:+ addr +:+ "/" +:+ "outputs")
       [(restapipkg.ParameterAddress, addr)] (V1.outputsIDsByBech32Address x) /\
     served ("/api/v1/addresses/ed25519" +:+ "/" +:+ addr +:+ "/" +:+ "outputs")
       [(restapipkg.ParameterAddress, addr)] (V1.outputsIDsByEd25519Address x) /\
     served ("/api/v1/addresses/alias" +:+ "/" +:+ addr +:+ "/" +:+ "outputs")
       [(restapipkg.ParameterAddress, addr)] (V1.outputsIDsByAliasAddress x) /\
     served ("/api/v1/addresses/nft" +:+ "/" +:+ addr +:+ "/" +:+ "outputs")
       [(restapipkg.ParameterAddress, addr)] (V1.outputsIDsByNFTAddress x)).
Proof.
  intros [h Hecho] serve at_ served. subst serve at_ served. cbv beta zeta.
  v1_table Hecho.
  all: split; [|split; [|split]].
  1: served_at 11%nat (V1.outputs x).
  4: served_at 10%nat (V1.outputs x).
  1: served_at 20%nat (V1.treasury x).
  3: served_at 19%nat (V1.treasury x).
  1: served_at 21%nat (V1.receipts x).
  2: served_at 20%nat (V1.receipts x).
  all: split; [intros index Hindex; repeat apply conj|].
  1: served_at 9%nat (V1.milestoneByIndex x).
  4: served_at 8%nat (V1.milestoneByIndex x).
  1: served_at 10%nat (V1.milestoneUTXOChangesByIndex x).
  3: served_at 9%nat (V1.milestoneUTXOChangesByIndex x).
  1: served_at 22%nat (V1.receiptsByMigratedAtIndex x).
  2: served_at 21%nat (V1.receiptsByMigratedAtIndex x).
  all: split; [intros id Hid; repeat apply conj|].
  1: served_at 12%nat (V1.outputByID x).
  5: served_at 11%nat (V1.outputByID x).
  1: served_at 17%nat (V1.aliasByID x).
  4: served_at 16%nat (V1.aliasByID x).
  1: served_at 18%nat (V1.nftByID x).
  3: served_at 17%nat (V1.nftByID x).
  1: served_at 19%nat (V1.foundryByID x).
  2: served_at 18%nat (V1.foundryByID x).
  all: intros addr Haddr; repeat apply conj.
  1: served_at 13%nat (V1.outputsIDsByBech32Address x).
  4: served_at 12%nat (V1.outputsIDsByBech32Address x).
  1: served_at 14%nat (V1.outputsIDsByEd25519Address x).
  3: served_at 13%nat (V1.outputsIDsByEd25519Address x).
  1: served_at 15%nat (V1.outputsIDsByAliasAddress x).
  2: served_at 14%nat (V1.outputsIDsByAliasAddress x).
  1: served_at 16%nat (V1.outputsIDsByNFTAddress x).
  1: served_at 15%nat (V1.outputsIDsByNFTAddress x).
Qed.

Lemma v1_ledger_routes_witness :
  ServeHTTP (v1Routes Example.operations
               (Example.dependencies false None (Some Example.pointer)))
    (request GET ("/api/v1/addresses/ed25519" +:+ "/" +:+ "outputs" +:+ "/" +:+ "outputs") [])
    (Example.fresh zeroGlobals)
  = reply StatusOK
      (V1.outputsIDsByEd25519Address Example.operations
         (routed GET
            ("/api/v1/addresses/ed25519" +:+ "/" +:+ "outputs" +:+ "/" +:+ "outputs")
            [(restapipkg.ParameterAddress, "outputs")] [])
         (Example.fresh zeroGlobals)).
Proof.
  exact (proj1 (proj2
           (proj2 (proj2 (proj2 (proj2 (proj2
              (v1_ledger_routes Example.operations
                 (Example.dependencies false None (Some Example.pointer))
                 [] (Example.fresh zeroGlobals)
                 (ex_intro _ Example.pointer eq_refl))))))
              "outputs" eq_refl))).
Defined.

(** X10. The node routes of [v1], served through the router.  GET on
    the info path answers with the payload of [info], which sees no
    request; the tips route answers when the tip selector is there.  A
    peer is read with GET and removed with DELETE on the same template,
    and removal answers 204 with an empty body.  Adding a peer, pruning
    the database and creating snapshots are POST routes answering 200
    with the wrapped payload of their operation. *)
Theorem v1_node_routes
    {World : Type} (x : V1.Operations World) (deps : V1.dependencies)
    (body : list Byte.byte) (n : Node World) :
  is_Some (V1.Echo deps) ->
  let serve m path := ServeHTTP (v1Routes x deps) (request m path body) n in
  let at_ m path ps := routed m path ps body in
  let served m path (op : Op World JSON) := serve m path = reply StatusOK (op (at_ m path []) n) in
  serve GET "/api/v1/info" = reply StatusOK (V1.info x n) /\
  (is_Some (V1.TipSelector deps) -> served GET "/api/v1/tips" (V1.tips x)) /\
  served GET "/api/v1/peers" (V1.listPeers x) /\
  served POST "/api/v1/peers" (V1.addPeer x) /\
  served POST "/api/v1/control/database/prune" (V1.pruneDatabase x) /\
  served POST "/api/v1/control/snapshots/create" (V1.createSnapshots x) /\
  (forall id, slashFree id = true ->
     let path := "/api/v1/peers" +:+ "/" +:+ id in
     serve GET path
       = reply StatusOK (V1.getPeer x (at_ GET path [(restapipkg.ParameterPeerID, id)]) n) /\
     serve DELETE path
       = replyNoContent
           (V1.removePeer x (at_ DELETE path [(restapipkg.ParameterPeerID, id)]) n)).
Proof.
  intros [h Hecho] serve at_ served. subst serve at_ served. cbv beta zeta.
  v1_table Hecho.
  all: split;
    [route_within 0%nat; unfold reply; destruct (V1.info x _) as [? [?|?]]; reflexivity|].
  - split; [intros _; served_at 1%nat (V1.tips x)|].
    split; [served_at 25%nat (V1.listPeers x)|].
    split; [served_at 26%nat (V1.addPeer x)|].
    split; [served_at 27%nat (V1.pruneDatabase x)|].
    split; [served_at 28%nat (V1.createSnapshots x)|].
    intros id Hid. cbv zeta. split.
    + served_at 23%nat (V1.getPeer x).
    + served_at 24%nat (V1.removePeer x).
  - split; [intros [t Ht]; discriminate Ht|].
    split; [served_at 24%nat (V1.listPeers x)|].
    split; [served_at 25%nat (V1.addPeer x)|].
    split; [served_at 26%nat (V1.pruneDatabase x)|].
    split; [served_at 27%nat (V1.createSnapshots x)|].
    intros id Hid. cbv zeta. split.
    + served_at 22%nat (V1.getPeer x).
    + served_at 23%nat (V1.removePeer x).
Qed.

Lemma v1_node_routes_witness :
  ServeHTTP (v1Routes Example.operations
               (Example.dependencies false None (Some Example.pointer)))
    (request POST "/api/v1/peers" []) (Example.fresh zeroGlobals)
  = reply StatusOK
      (V1.addPeer Example.operations (routed POST "/api/v1/peers" [] [])
         (Example.fresh zeroGlobals)).
Proof.
  exact (proj1 (proj2 (proj2 (proj2
           (v1_node_routes Example.operations
              (Example.dependencies false None (Some Example.pointer))
              [] (Example.fresh zeroGlobals)
              (ex_intro _ Example.pointer eq_refl)))))).
Defined.

(** ** Every response *)

(** A template without parameters matches its own segments only. *)
Lemma matchSegments_static (tmpl path : list string) ps :
  forallb (fun s => bool_decide (paramName s = None)) tmpl = true ->
  matchSegments tmpl path = Some ps -> path = tmpl.
Proof.
  revert path ps. induction tmpl as [|t tmpl IH]; intros [|p path] ps Hs Hm;
    try discriminate Hm; [reflexivity|].
  cbn [forallb] in Hs. apply andb_prop in Hs as [Ht Hs].
  apply bool_decide_eq_true_1 in Ht.
  cbn [matchSegments] in Hm. rewrite Ht in Hm.
  destruct (String.eqb_spec t p) as [->|_]; [|discriminate Hm].
  f_equal. exact (IH _ _ Hs Hm).
Qed.

(** So a path it matches is the template itself. *)
Lemma matchPath_static (tmpl path : string) :
  forallb (fun s => bool_decide (paramName s = None)) (segments tmpl) = true ->
  is_Some (matchPath tmpl path) -> path = tmpl.
Proof.
  intros Hs [ps Hm]. unfold matchPath in Hm.
  rewrite <- (unsegments_segments path), (matchSegments_static _ _ _ Hs Hm).
  apply unsegments_segments.
Qed.

Section Found.
  Context {World : Type}.

(** The handler a lookup finds is the one of a registered route of the
    method whose template matches. *)
Lemma findRouteSegments_found (e : Router World) m path h ps :
  findRouteSegments e m path = Found h ps ->
  exists r, r ∈ e /\ RouteMethod r = m /\ RouteHandler r = h /\
            matchSegments (segments (RoutePath r)) path = Some ps.
Proof.
  induction e as [|r e IH]; [discriminate|].
  cbn [findRouteSegments].
  destruct (matchSegments (segments (RoutePath r)) path) as [ps'|] eqn:Hm.
  - destruct (decide (RouteMethod r = m)) as [Hr|Hr].
    + intros [= <- <-]. exists r. split; [left|]. auto.
    + destruct (findRouteSegments e m path) as [h' ps''| |]; try discriminate.
      intros [= <- <-]. destruct (IH eq_refl) as (r' & Hin & Hrest).
      exists r'. split; [right; exact Hin|exact Hrest].
  - intros Hf. destruct (IH Hf) as (r' & Hin & Hrest).
    exists r'. split; [right; exact Hin|exact Hrest].
Qed.

End Found.

(** What a handler of either table leaves on a fresh response writer when
    it ends without error. *)
Lemma handlers_classified
    {World : Type} (x : V1.Operations World) (d : Debug.Operations World)
    (vdeps : V1.dependencies) (ddeps : Debug.dependencies) :
  Forall (fun r => forall (c : Request) (n : Node World) (s' : Exchange World),
            RouteHandler r c {| node := n; resp := freshResponse |} = (s', Ok tt) ->
            (Status (resp s') = StatusOK /\
             (RouteMethod r = GET \/ RouteMethod r = POST) /\
             Written (resp s') <> BodyEmpty /\
             Header (resp s') !! HeaderLocation = None) \/
            (Status (resp s') = StatusCreated /\
             RouteMethod r = POST /\ RoutePath r = messagesPath /\
             is_Some (Header (resp s') !! HeaderLocation)) \/
            (Status (resp s') = StatusNoContent /\
             RouteMethod r = DELETE /\
             Written (resp s') = BodyEmpty /\
             Header (resp s') = ∅))
    (Debug.configure d ddeps (v1Routes x vdeps)).
Proof.
  table. destruct (V1.Echo vdeps) as [h|]; [destruct (V1.TipSelector vdeps) as [t|]|].
  1: rewrite bool_decide_eq_true_2 by discriminate.
  2: rewrite bool_decide_eq_false_2 by (intros H; apply H; reflexivity).
  all: cbn [foldl app];
    repeat (apply Forall_cons_2;
            [intros c n s' Hrun; cbn [RouteHandler] in Hrun; operate Hrun;
             injection Hrun as <-;
             cbn [RouteMethod RoutePath resp Status Header Written freshResponse];
             first [ left; repeat apply conj;
                     [reflexivity|(left + right); reflexivity|discriminate|reflexivity]
                   | right; left; repeat apply conj;
                     [reflexivity|reflexivity|reflexivity|
                      rewrite (lookup_insert_ne (M := gmap string)) by discriminate;
                      rewrite (lookup_insert_eq (M := gmap string)); eauto]
                   | right; right; repeat apply conj; reflexivity ]|]);
    apply Forall_nil_2.
Qed.

(** X11. Every response of the two tables together is of one of four
    kinds, whatever the request and the state of the node: it comes from
    the error handler; or it has status 200, a body, no location header
    and answers a GET or a POST; or it has status 201 with a location
    header and answers POST on the messages path; or it has status 204 with
    neither body nor header and answers a DELETE. *)
Theorem responses_classified
    {World : Type} (x : V1.Operations World) (d : Debug.Operations World)
    (vdeps : V1.dependencies) (ddeps : Debug.dependencies)
    (req : Request) (n : Node World) :
  let out := (ServeHTTP (Debug.configure d ddeps (v1Routes x vdeps)) req n).2 in
  (exists err, out = HTTPErrorHandler err) \/
  (Status out = StatusOK /\
   (ReqMethod req = GET \/ ReqMethod req = POST) /\
   Written out <> BodyEmpty /\
   Header out !! HeaderLocation = None) \/
  (Status out = StatusCreated /\
   ReqMethod req = POST /\ ReqPath req = messagesPath /\
   is_Some (Header out !! HeaderLocation)) \/
  (Status out = StatusNoContent /\
   ReqMethod req = DELETE /\
   Written out = BodyEmpty /\
   Header out = ∅).
Proof.
  intros out. subst out. unfold ServeHTTP, findRoute.
  destruct (findRouteSegments _ (ReqMethod req) (segments (ReqPath req)))
    as [h ps| |] eqn:Hfind; [|left; eexists; reflexivity..].
  apply findRouteSegments_found in Hfind as (r & Hin & Hmethod & <- & Hmatch).
  pose proof (handlers_classified x d vdeps ddeps) as Hall.
  rewrite Forall_forall in Hall. specialize (Hall r Hin).
  unfold runHandler.
  match goal with
  | |- context [RouteHandler r ?c ?s] =>
      specialize (Hall c n); destruct (RouteHandler r c s) as [s' [[]|err]]
  end; [|left; eexists; reflexivity].
  right. cbn [snd]. rewrite <- Hmethod.
  destruct (Hall s' eq_refl) as [H200|[H201|H204]].
  - left. exact H200.
  - right. left. destruct H201 as (Hs & Hm & Hp & Hl).
    repeat apply conj; [exact Hs|exact Hm| |exact Hl].
    rewrite <- Hp. apply matchPath_static.
    + rewrite Hp. vm_compute. reflexivity.
    + exists ps. exact Hmatch.
  - right. right. exact H204.
Qed.
